(** * Seat reservation core: seat-lock registry and booking commit pipeline

    A shallow embedding of [src/services/SeatLockService.ts],
    [src/services/BookingService.ts] and the entities they touch
    ([Event], [Seat], [Booking], [BookingSeat]).

    Conventions of the embedding:
    - [Date.now()] and [new Date()] are explicit arguments (milliseconds, [Z]);
    - [uuidv4()] draws are explicit arguments;
    - the DynamoDB table is a finite map from the partition key [seatId] to
      the stored item, together with a flag telling whether the service
      answers requests at all;
    - the relational store is a record of tables; a transaction that is
      rolled back returns the store it started from;
    - a JavaScript [number] that holds a price is an IEEE-754 binary64 value
      ([float]); one that holds a count, a time stamp or the lock duration
      is an integer ([Z]);
    - a [decimal(10, 2)] column holds an integer number of hundredths; the
      driver hands it to the program as a string, never as a number, and
      what the column makes of a number written to it belongs to the store
      and is an argument of the operations that write one;
    - a table is stored under the column names its entity declares: the
      connection of [config/database.ts] sets no naming strategy. *)

From Stdlib Require Import ZArith Floats Uint63.
From stdpp Require Import base option list strings pretty gmap.

Open Scope Z_scope.

(** ** The DynamoDB document client, as the lock service uses it *)

Module AWS.

(** [error.code] of a rejected request: the only code the services test
    for, and any other failure of the service. *)
Inductive ErrorCode :=
| ConditionalCheckFailedException
| ServiceUnavailable.

(** The outcome of [request.promise()]. *)
Inductive Promise (A : Type) :=
| Resolved (a : A)
| Rejected (code : ErrorCode).
Arguments Resolved {A} a.
Arguments Rejected {A} code.

Section Table.
Context {Item : Type}.

(** One table keyed by a string partition key.  When [reachable] is
    [false] every request is rejected with [ServiceUnavailable]. *)
Record DocumentClient := {
  items : gmap string Item;
  reachable : bool
}.

Definition get (d : DocumentClient) (key : string) : Promise (option Item) :=
  if reachable d then Resolved (items d !! key) else Rejected ServiceUnavailable.

(** [put] with a [ConditionExpression], evaluated on the current item
    (or its absence) under the same key. *)
Definition put (d : DocumentClient) (key : string) (item : Item)
    (condition : option Item -> bool) : Promise unit * DocumentClient :=
  if reachable d then
    if condition (items d !! key)
    then (Resolved (), {| items := <[key := item]> (items d); reachable := reachable d |})
    else (Rejected ConditionalCheckFailedException, d)
  else (Rejected ServiceUnavailable, d).

(** [update] with an [UpdateExpression] and a [ConditionExpression]. *)
Definition update (d : DocumentClient) (key : string) (set : Item -> Item)
    (condition : option Item -> bool) : Promise unit * DocumentClient :=
  if reachable d then
    if condition (items d !! key)
    then (Resolved (), {| items := alter set key (items d); reachable := reachable d |})
    else (Rejected ConditionalCheckFailedException, d)
  else (Rejected ServiceUnavailable, d).

(** [delete] with a [ConditionExpression]. *)
Definition delete (d : DocumentClient) (key : string)
    (condition : option Item -> bool) : Promise unit * DocumentClient :=
  if reachable d then
    if condition (items d !! key)
    then (Resolved (), {| items := base.delete key (items d); reachable := reachable d |})
    else (Rejected ConditionalCheckFailedException, d)
  else (Rejected ServiceUnavailable, d).

(** [scan] with a [FilterExpression]: the stored items that pass the
    filter, for a table that fits into one page of results. *)
Definition scan (d : DocumentClient) (filter : Item -> bool) : Promise (list Item) :=
  if reachable d
  then Resolved (List.filter filter (snd <$> map_to_list (items d)))
  else Rejected ServiceUnavailable.

End Table.
Arguments DocumentClient Item : clear implicits.

End AWS.

(** ** SeatLockService.ts *)

Record SeatLock := {
  seatId : string;
  eventId : string;
  userId : string;
  lockId : string;
  expiresAt : Z;
  createdAt : Z
}.

Record LockResult := {
  lr_success : bool;
  lr_lockId : option string;
  lr_expiresAt : option Z;
  lr_message : option string
}.

(** The service object: [this.dynamoDB] and [this.lockDurationMs]
    ([this.tableName] selects the one table modelled). *)
Record SeatLockService := {
  dynamoDB : AWS.DocumentClient SeatLock;
  lockDurationMs : Z
}.

Definition with_dynamoDB (this : SeatLockService) (d : AWS.DocumentClient SeatLock)
    : SeatLockService :=
  {| dynamoDB := d; lockDurationMs := lockDurationMs this |}.

(** [new Date(t).toISOString()] throws a [RangeError] when [t] is not a
    time value, that is beyond 8.64e15 ms on either side of the epoch. *)
Definition toISOString_throws (t : Z) : bool :=
  negb ((-8640000000000000 <=? t) && (t <=? 8640000000000000)).

(** ['attribute_not_exists(seatId) OR expiresAt < :now'] *)
Definition acquire_condition (now : Z) (current : option SeatLock) : bool :=
  match current with
  | None => true
  | Some item => bool_decide (expiresAt item < now)
  end.

(** ['userId = :userId AND lockId = :lockId AND expiresAt > :now'] *)
Definition extend_condition (user lock : string) (now : Z) (current : option SeatLock) : bool :=
  match current with
  | None => false
  | Some item =>
      bool_decide (userId item = user) && bool_decide (lockId item = lock)
      && bool_decide (expiresAt item > now)
  end.

(** ['userId = :userId AND lockId = :lockId'] *)
Definition release_condition (user : string) (lock : option string)
    (current : option SeatLock) : bool :=
  match current with
  | None => false
  | Some item => bool_decide (userId item = user) && bool_decide (Some (lockId item) = lock)
  end.

(** The log entry written after the put formats [expiresAt] as a date
    inside the [try] block: when that throws, the item is stored already
    and the error, which carries no [code], is answered as a system
    error. *)
Definition acquireLock (this : SeatLockService) (uuid : string) (now : Z)
    (seat event user : string) : LockResult * SeatLockService :=
  let lockId := uuid in
  let expiresAt := now + lockDurationMs this in
  let seatLock :=
    {| seatId := seat; eventId := event; userId := user; lockId := lockId;
       expiresAt := expiresAt; createdAt := now |} in
  match AWS.put (dynamoDB this) seat seatLock (acquire_condition now) with
  | (AWS.Resolved _, d) =>
      if toISOString_throws expiresAt then
        ({| lr_success := false; lr_lockId := None; lr_expiresAt := None;
            lr_message := Some "Failed to acquire seat lock due to system error"%string |},
         with_dynamoDB this d)
      else
        ({| lr_success := true; lr_lockId := Some lockId; lr_expiresAt := Some expiresAt;
            lr_message := Some "Seat locked successfully"%string |},
         with_dynamoDB this d)
  | (AWS.Rejected AWS.ConditionalCheckFailedException, d) =>
      ({| lr_success := false; lr_lockId := None; lr_expiresAt := None;
          lr_message := Some "Seat is already locked by another user"%string |},
       with_dynamoDB this d)
  | (AWS.Rejected _, d) =>
      ({| lr_success := false; lr_lockId := None; lr_expiresAt := None;
          lr_message := Some "Failed to acquire seat lock due to system error"%string |},
       with_dynamoDB this d)
  end.

(** As in [acquireLock], the log entry after the update formats
    [newExpiresAt] as a date inside the [try] block. *)
Definition extendLock (this : SeatLockService) (now : Z)
    (seat event user lock : string) : LockResult * SeatLockService :=
  let newExpiresAt := now + lockDurationMs this in
  let set item :=
    {| seatId := seatId item; eventId := eventId item; userId := userId item;
       lockId := lockId item; expiresAt := newExpiresAt; createdAt := createdAt item |} in
  match AWS.update (dynamoDB this) seat set (extend_condition user lock now) with
  | (AWS.Resolved _, d) =>
      if toISOString_throws newExpiresAt then
        ({| lr_success := false; lr_lockId := None; lr_expiresAt := None;
            lr_message := Some "Failed to extend lock due to system error"%string |},
         with_dynamoDB this d)
      else
        ({| lr_success := true; lr_lockId := Some lock; lr_expiresAt := Some newExpiresAt;
            lr_message := Some "Lock extended successfully"%string |},
         with_dynamoDB this d)
  | (AWS.Rejected AWS.ConditionalCheckFailedException, d) =>
      ({| lr_success := false; lr_lockId := None; lr_expiresAt := None;
          lr_message := Some "Cannot extend lock - invalid lock or lock expired"%string |},
       with_dynamoDB this d)
  | (AWS.Rejected _, d) =>
      ({| lr_success := false; lr_lockId := None; lr_expiresAt := None;
          lr_message := Some "Failed to extend lock due to system error"%string |},
       with_dynamoDB this d)
  end.

(** [lock] is [None] where the caller passes [undefined] (an index past the
    end of [lockIds]); no stored [lockId] equals it. *)
Definition releaseLock (this : SeatLockService)
    (seat event user : string) (lock : option string) : bool * SeatLockService :=
  match AWS.delete (dynamoDB this) seat (release_condition user lock) with
  | (AWS.Resolved _, d) => (true, with_dynamoDB this d)
  | (AWS.Rejected AWS.ConditionalCheckFailedException, d) => (false, with_dynamoDB this d)
  | (AWS.Rejected _, d) => (false, with_dynamoDB this d)
  end.

Definition isLocked (this : SeatLockService) (now : Z) (seat : string) : bool :=
  match AWS.get (dynamoDB this) seat with
  | AWS.Resolved None => false
  | AWS.Resolved (Some lock) => bool_decide (expiresAt lock > now)
  | AWS.Rejected _ => true
  end.

Definition getLockInfo (this : SeatLockService) (now : Z) (seat : string) : option SeatLock :=
  match AWS.get (dynamoDB this) seat with
  | AWS.Resolved None => None
  | AWS.Resolved (Some lock) => if bool_decide (expiresAt lock > now) then Some lock else None
  | AWS.Rejected _ => None
  end.

Definition validateLock (this : SeatLockService) (now : Z)
    (seat user : string) (lock : option string) : bool :=
  match getLockInfo this now seat with
  | None => false
  | Some lockInfo =>
      bool_decide (userId lockInfo = user) && bool_decide (Some (lockId lockInfo) = lock)
  end.

(** ** Entities *)

Module EventStatus.
Inductive t := DRAFT | PUBLISHED | SALES_OPEN | SALES_CLOSED | COMPLETED | CANCELLED.
#[global] Instance eq_dec : EqDecision t.
Proof. solve_decision. Defined.
End EventStatus.

Module SeatStatus.
Inductive t := AVAILABLE | BOOKED | MAINTENANCE.
#[global] Instance eq_dec : EqDecision t.
Proof. solve_decision. Defined.
End SeatStatus.

Module BookingStatus.
Inductive t := PENDING | CONFIRMED | CANCELLED | REFUNDED.
#[global] Instance eq_dec : EqDecision t.
Proof. solve_decision. Defined.
End BookingStatus.

(** A value of a [decimal(10, 2)] column, counted in hundredths (at most
    ten digits).  A loaded entity holds it as the string of the value, such
    as 12.50. *)
Definition Decimal := Z.

(** [Number(s)] for the string [s] of a decimal: the binary64 value nearest
    to it.  The count of hundredths and 100 are exact in binary64 and the
    division rounds to nearest. *)
Definition Number (s : Decimal) : float :=
  let magnitude := (PrimFloat.of_uint63 (Uint63.of_Z (Z.abs s)) / 100)%float in
  if s <? 0 then (- magnitude)%float else magnitude.

(** Columns of [events] that the booking core reads or writes.  The [int]
    columns hold 32-bit signed integers. *)
Record Event := {
  ev_id : string;
  ev_eventDate : Z;
  ev_status : EventStatus.t;
  ev_basePrice : option Decimal;
  ev_maxCapacity : Z;
  ev_availableSeats : Z
}.

Definition canPurchaseTickets (this : Event) (today : Z) : bool :=
  bool_decide (ev_status this = EventStatus.SALES_OPEN)
  && bool_decide (ev_availableSeats this > 0)
  && bool_decide (today < ev_eventDate this).

Record Seat := {
  seat_id : string;
  seat_status : SeatStatus.t;
  seat_priceModifier : option Decimal
}.

Record Booking := {
  bk_id : string;
  bk_userId : string;
  bk_eventId : string;
  bk_totalPrice : Decimal;
  bk_status : BookingStatus.t;
  bk_paymentIntentId : option string;
  bk_bookingDate : Z;
  bk_confirmedAt : option Z;
  bk_cancelledAt : option Z;
  bk_cancellationReason : option string
}.

Record BookingSeat := {
  bs_id : string;
  bs_bookingId : string;
  bs_seatId : string;
  bs_priceAtBooking : Decimal
}.

(** ** The relational store, as the entity manager presents it *)

(** [events] and [bookings] by primary key; the rows of [seats] and
    [booking_seats] in the order the store returns them. *)
Record Database := {
  events : gmap string Event;
  seats : list Seat;
  bookings : gmap string Booking;
  booking_seats : list BookingSeat
}.

(** Range of an [int] column; a write outside it is refused by the store. *)
Definition int4 (z : Z) : bool := (-2147483648 <=? z) && (z <=? 2147483647).

(** [manager.findByIds(Seat, ids)]: the rows whose [id] is among [ids], in
    the order of the store (the query has no ORDER BY). *)
Definition findByIds (table : list Seat) (ids : list string) : list Seat :=
  filter (fun s => seat_id s ∈ ids) table.

(** The [int] columns of [events] by name, as [entities/Event.ts] declares
    them. *)
Definition Event_int_column (name : string) : option (Event -> Z) :=
  if bool_decide (name = "maxCapacity"%string) then Some ev_maxCapacity
  else if bool_decide (name = "availableSeats"%string) then Some ev_availableSeats
  else None.

(** [manager.update(Event, id, { availableSeats: () => text })], where the
    text computes [expr] from the column it names, [column].  The text is
    sent to the store as written: a statement that names a column the table
    does not have is refused, whether or not a row matches.  No row under
    [id] updates nothing; a value outside the column range is refused. *)
Definition update_availableSeats (db : Database) (id : string) (column : string)
    (expr : Z -> Z) : option Database :=
  read ← Event_int_column column;
  match events db !! id with
  | None => Some db
  | Some ev =>
      let v := expr (read ev) in
      if int4 v then
        Some {| events :=
                  <[id := {| ev_id := ev_id ev; ev_eventDate := ev_eventDate ev;
                             ev_status := ev_status ev; ev_basePrice := ev_basePrice ev;
                             ev_maxCapacity := ev_maxCapacity ev;
                             ev_availableSeats := v |}]> (events db);
                seats := seats db; bookings := bookings db;
                booking_seats := booking_seats db |}
      else None
  end.

Definition set_seat_status (st : SeatStatus.t) (s : Seat) : Seat :=
  {| seat_id := seat_id s; seat_status := st; seat_priceModifier := seat_priceModifier s |}.

(** [manager.update(Seat, ids, { status })]: an empty list of criteria is
    rejected by the entity manager; ids without a row are skipped. *)
Definition update_seat_status (db : Database) (ids : list string) (st : SeatStatus.t)
    : option Database :=
  match ids with
  | [] => None
  | _ =>
      Some {| events := events db;
              seats := (fun s => if decide (seat_id s ∈ ids) then set_seat_status st s else s)
                         <$> seats db;
              bookings := bookings db; booking_seats := booking_seats db |}
  end.

(** [manager.save(booking)], for the row the store makes of the entity. *)
Definition save_booking (db : Database) (b : Booking) : Database :=
  {| events := events db; seats := seats db;
     bookings := <[bk_id b := b]> (bookings db);
     booking_seats := booking_seats db |}.

(** [manager.save(bookingSeats)], for the rows the store makes of them. *)
Definition save_booking_seats (db : Database) (rows : list BookingSeat) : Database :=
  {| events := events db; seats := seats db; bookings := bookings db;
     booking_seats := booking_seats db ++ rows |}.

(** [manager.update(Booking, id, partial)] *)
Definition update_booking (db : Database) (id : string) (set : Booking -> Booking) : Database :=
  {| events := events db; seats := seats db;
     bookings := alter set id (bookings db);
     booking_seats := booking_seats db |}.

(** ** BookingService.ts *)

Record BookingRequest := {
  req_userId : string;
  req_eventId : string;
  req_seatIds : list string;
  req_lockIds : list string;
  req_paymentIntentId : option string
}.

Record BookingResult := {
  success : bool;
  booking : option Booking;
  message : option string;
  failureReason : option string
}.

Definition failure (msg reason : string) : BookingResult :=
  {| success := false; booking := None; message := Some msg; failureReason := Some reason |}.

(** What one call of [createBooking] reads from its surroundings: the clock
    at each lock validation (by index), at the purchasability test and at
    the booking date, the identifiers drawn for the new rows, and what the
    store's [decimal(10, 2)] columns make of a number written to them (the
    value kept, or nothing where the store refuses the number). *)
Record Surroundings := {
  validatedAt : nat -> Z;
  today : Z;
  bookingDate : Z;
  bookingUuid : string;
  bookingSeatUuid : nat -> string;
  decimal : float -> option Decimal
}.

Definition validateSeatLocks (locks : SeatLockService) (clock : nat -> Z)
    (user event : string) (seatIds lockIds : list string) : BookingResult :=
  let validationResults :=
    imap (fun index seat => validateLock locks (clock index) seat user (lockIds !! index))
         seatIds in
  let invalidLocks := existsb negb validationResults in
  if invalidLocks then
    failure "One or more seat locks are invalid or have expired" "INVALID_LOCKS"
  else {| success := true; booking := None; message := None; failureReason := None |}.

(** What [x || d] yields for a nullable decimal column [x] of a loaded
    entity: the column's string, or the number [d]. *)
Inductive Operand :=
| OfString (s : Decimal)
| OfNumber (x : float).

(** [x || d]: [null] is falsy; the string of a stored value is not, not
    even that of [0.00]. *)
Definition or_else (x : option Decimal) (d : float) : Operand :=
  match x with
  | Some s => OfString s
  | None => OfNumber d
  end.

(** The conversion [*] applies to an operand. *)
Definition ToNumber (v : Operand) : float :=
  match v with
  | OfString s => Number s
  | OfNumber x => x
  end.

Definition calculateSeatPrice (event : Event) (seat : Seat) : float :=
  let basePrice := or_else (ev_basePrice event) 0%float in
  let priceModifier := or_else (seat_priceModifier seat) 1%float in
  (ToNumber basePrice * ToNumber priceModifier)%float.

Definition calculateTotalPrice (event : Event) (seats : list Seat) : float :=
  fold_left (fun total seat =>
               let seatPrice := calculateSeatPrice event seat in
               (total + seatPrice)%float)
            seats 0%float.

(** The post-commit [seatIds.map((seatId, index) => releaseLock(...))]; no
    release can fail the call. *)
Definition releaseLocks (locks : SeatLockService) (event user : string)
    (seatIds lockIds : list string) : SeatLockService :=
  fold_left (fun svc '(index, seat) => snd (releaseLock svc seat event user (lockIds !! index)))
            (imap pair seatIds) locks.

(** Step 4: [new Booking()] with the fields the service assigns, as the row
    the store makes of it; nothing when [totalPrice] is refused by its
    column. *)
Definition new_booking (env : Surroundings) (request : BookingRequest) (totalPrice : float)
    : option Booking :=
  stored ← decimal env totalPrice;
  Some {| bk_id := bookingUuid env; bk_userId := req_userId request;
          bk_eventId := req_eventId request;
          bk_totalPrice := stored; bk_status := BookingStatus.PENDING;
          bk_paymentIntentId := req_paymentIntentId request;
          bk_bookingDate := bookingDate env;
          bk_confirmedAt := None; bk_cancelledAt := None;
          bk_cancellationReason := None |}.

(** Step 5: one [BookingSeat] per loaded seat, as the rows the store makes
    of them; nothing when a price is refused by its column. *)
Definition new_booking_seats (env : Surroundings) (event : Event) (found : list Seat)
    (bookingId : string) : option (list BookingSeat) :=
  mapM (fun '(i, seat) =>
          stored ← decimal env (calculateSeatPrice event seat);
          Some {| bs_id := bookingSeatUuid env i; bs_bookingId := bookingId;
                  bs_seatId := seat_id seat; bs_priceAtBooking := stored |})
       (imap pair found).

(** The writes of steps 4 to 7 inside the transaction; [None] when one of
    them throws.  The inventory update names the column [available_seats]. *)
Definition commit_writes (db : Database) (event : Event) (found : list Seat)
    (totalPrice : float) (env : Surroundings) (request : BookingRequest)
    : option Database :=
  b ← new_booking env request totalPrice;
  let db1 := save_booking db b in
  bookingSeats ← new_booking_seats env event found (bk_id b);
  let db2 := save_booking_seats db1 bookingSeats in
  db3 ← update_availableSeats db2 (req_eventId request) "available_seats"
          (fun available_seats => available_seats - Z.of_nat (length (req_seatIds request)));
  update_seat_status db3 (req_seatIds request) SeatStatus.BOOKED.

Definition createBooking (locks : SeatLockService) (db : Database) (env : Surroundings)
    (request : BookingRequest) : BookingResult * Database * SeatLockService :=
  let userId := req_userId request in
  let eventId := req_eventId request in
  let seatIds := req_seatIds request in
  let lockIds := req_lockIds request in
  if negb (Nat.eqb (length seatIds) (length lockIds)) then
    (failure "Mismatch between seat IDs and lock IDs" "INVALID_REQUEST", db, locks)
  else
    let validationResult :=
      validateSeatLocks locks (validatedAt env) userId eventId seatIds lockIds in
    if negb (success validationResult) then (validationResult, db, locks)
    else
      match events db !! eventId with
      | None => (failure "Event not found" "EVENT_NOT_FOUND", db, locks)
      | Some event =>
          if negb (canPurchaseTickets event (today env)) then
            (failure "Tickets are not available for purchase" "SALES_CLOSED", db, locks)
          else
            let found := findByIds (seats db) seatIds in
            if negb (Nat.eqb (length found) (length seatIds)) then
              (failure "Some seats not found" "SEATS_NOT_FOUND", db, locks)
            else
              let totalPrice := calculateTotalPrice event found in
              match commit_writes db event found totalPrice env request with
              | None =>
                  (failure "Failed to create booking due to system error" "SYSTEM_ERROR",
                   db, locks)
              | Some db' =>
                  let locks' := releaseLocks locks eventId userId seatIds lockIds in
                  ({| success := true; booking := bookings db' !! bookingUuid env;
                      message := Some "Booking created successfully"%string;
                      failureReason := None |},
                   db', locks')
              end
      end.

Definition confirm_fields (now : Z) (b : Booking) : Booking :=
  {| bk_id := bk_id b; bk_userId := bk_userId b; bk_eventId := bk_eventId b;
     bk_totalPrice := bk_totalPrice b; bk_status := BookingStatus.CONFIRMED;
     bk_paymentIntentId := bk_paymentIntentId b; bk_bookingDate := bk_bookingDate b;
     bk_confirmedAt := Some now; bk_cancelledAt := bk_cancelledAt b;
     bk_cancellationReason := bk_cancellationReason b |}.

Definition confirmBooking (db : Database) (now : Z) (bookingId paymentIntentId : string)
    : BookingResult * Database :=
  match bookings db !! bookingId with
  | Some b =>
      if bool_decide (bk_paymentIntentId b = Some paymentIntentId) then
        if negb (bool_decide (bk_status b = BookingStatus.PENDING)) then
          (failure "Booking is not in pending status" "INVALID_STATUS", db)
        else
          let db' := update_booking db bookingId (confirm_fields now) in
          ({| success := true; booking := bookings db' !! bookingId;
              message := Some "Booking confirmed successfully"%string;
              failureReason := None |},
           db')
      else (failure "Booking not found or payment intent mismatch" "BOOKING_NOT_FOUND", db)
  | None => (failure "Booking not found or payment intent mismatch" "BOOKING_NOT_FOUND", db)
  end.

(** An [undefined] reason leaves the column as it is. *)
Definition cancel_fields (now : Z) (reason : option string) (b : Booking) : Booking :=
  {| bk_id := bk_id b; bk_userId := bk_userId b; bk_eventId := bk_eventId b;
     bk_totalPrice := bk_totalPrice b; bk_status := BookingStatus.CANCELLED;
     bk_paymentIntentId := bk_paymentIntentId b; bk_bookingDate := bk_bookingDate b;
     bk_confirmedAt := bk_confirmedAt b; bk_cancelledAt := Some now;
     bk_cancellationReason :=
       match reason with Some r => Some r | None => bk_cancellationReason b end |}.

(** [booking.bookingSeats.map(bs => bs.seatId)] *)
Definition booked_seatIds (db : Database) (bookingId : string) : list string :=
  map bs_seatId (filter (fun bs => bs_bookingId bs = bookingId) (booking_seats db)).

(** The writes of [cancelBooking] inside its transaction; [None] when one
    of them throws.  The inventory update names the column
    [available_seats]. *)
Definition cancel_writes (db : Database) (now : Z) (b : Booking) (bookingId : string)
    (reason : option string) : option Database :=
  let db1 := update_booking db bookingId (cancel_fields now reason) in
  let seatIds := booked_seatIds db bookingId in
  db2 ← update_seat_status db1 seatIds SeatStatus.AVAILABLE;
  update_availableSeats db2 (bk_eventId b) "available_seats"
    (fun available_seats => available_seats + Z.of_nat (length seatIds)).

Definition cancelBooking (db : Database) (now : Z) (bookingId user : string)
    (reason : option string) : BookingResult * Database :=
  match bookings db !! bookingId with
  | Some b =>
      if bool_decide (bk_userId b = user) then
        if bool_decide (bk_status b = BookingStatus.CANCELLED) then
          (failure "Booking is already cancelled" "ALREADY_CANCELLED", db)
        else
          match cancel_writes db now b bookingId reason with
          | None => (failure "Failed to cancel booking" "SYSTEM_ERROR", db)
          | Some db' =>
              ({| success := true; booking := None;
                  message := Some "Booking cancelled successfully"%string;
                  failureReason := None |},
               db')
          end
      else (failure "Booking not found or unauthorized" "BOOKING_NOT_FOUND", db)
  | None => (failure "Booking not found or unauthorized" "BOOKING_NOT_FOUND", db)
  end.

(** ** Reference definitions in the words of the specification *)

(** [0 <= available_seats <= max_capacity] *)
Definition inventory_ok (ev : Event) : Prop :=
  0 <= ev_availableSeats ev <= ev_maxCapacity ev.

(** [n / d] rounded to the nearest integer, ties to the even one
    (banker's rounding); [d] positive. *)
Definition round_half_even (n d : Z) : Z :=
  let q := n / d in
  let r := n mod d in
  if 2 * r <? d then q
  else if d <? 2 * r then q + 1
  else if Z.even q then q else q + 1.

(** The pricing rule of the specification: money is fixed-point with two
    decimals (an integer number of cents), a price modifier is a two-decimal
    factor (an integer number of hundredths); the products are summed
    exactly and the sum is rounded to cents, ties to even. *)
Definition spec_total_price (base_cents : Z) (modifiers_hundredths : list Z) : Z :=
  round_half_even (foldr Z.add 0 (map (fun m => base_cents * m) modifiers_hundredths)) 100.

(** A non-negative amount of cents as the JavaScript number of its value. *)
Definition number_of_cents (cents : Z) : float :=
  (PrimFloat.of_uint63 (Uint63.of_Z cents) / 100)%float.

(** The total of [calculateTotalPrice] written as a sum: the per-seat
    prices added from the left, starting at 0, in binary64 arithmetic. *)
Definition sum_from_left (prices : list float) : float :=
  fold_left PrimFloat.add prices 0%float.

(** ** Concrete registries and stores used by the examples below *)

Module Fixture.

Definition lock (seat user id : string) (expires : Z) : SeatLock :=
  {| seatId := seat; eventId := "E1"; userId := user; lockId := id;
     expiresAt := expires; createdAt := 0 |}.

(** One lock on S1 held by U1 that expires at 1000. *)
Definition one_lock : SeatLockService :=
  {| dynamoDB := {| AWS.items := {[ "S1"%string := lock "S1" "U1" "L1" 1000 ]};
                    AWS.reachable := true |};
     lockDurationMs := 300000 |}.

(** The same table while the service does not answer. *)
Definition unreachable : SeatLockService :=
  {| dynamoDB := {| AWS.items := {[ "S1"%string := lock "S1" "U1" "L1" 1000 ]};
                    AWS.reachable := false |};
     lockDurationMs := 300000 |}.

(** Locks of U1 on S1 and S2, and of U2 on S3 and S4, all live until 1000. *)
Definition four_locks : SeatLockService :=
  {| dynamoDB :=
       {| AWS.items :=
            {[ "S1"%string := lock "S1" "U1" "L1" 1000;
               "S2"%string := lock "S2" "U1" "L2" 1000;
               "S3"%string := lock "S3" "U2" "L3" 1000;
               "S4"%string := lock "S4" "U2" "L4" 1000 ]};
          AWS.reachable := true |};
     lockDurationMs := 300000 |}.

Definition seat (id : string) (st : SeatStatus.t) (modifier : option Decimal) : Seat :=
  {| seat_id := id; seat_status := st; seat_priceModifier := modifier |}.

Definition event (capacity available : Z) (price : option Decimal) : Event :=
  {| ev_id := "E1"; ev_eventDate := 5000; ev_status := EventStatus.SALES_OPEN;
     ev_basePrice := price; ev_maxCapacity := capacity; ev_availableSeats := available |}.

Definition four_seats : list Seat :=
  [ seat "S1" SeatStatus.AVAILABLE None; seat "S2" SeatStatus.AVAILABLE None;
    seat "S3" SeatStatus.AVAILABLE None; seat "S4" SeatStatus.AVAILABLE None ].

(** An event on sale at base price 50.00 with [available] of [capacity]
    seats left and no booking yet. *)
Definition store (capacity available : Z) : Database :=
  {| events := {[ "E1"%string := event capacity available (Some 5000) ]};
     seats := four_seats; bookings := ∅; booking_seats := [] |}.

(** The hundredths nearest to an amount that is not negative. *)
Definition hundredths (amount : float) : option Decimal :=
  match Prim2SF (amount * 100 + 0.5)%float with
  | S754_zero _ => Some 0
  | S754_finite false mantissa exponent => Some (Z.shiftl (Z.pos mantissa) exponent)
  | _ => None
  end.

(** The clock reads 500 throughout, the booking row drawn is [bookingId]
    and its seat rows are numbered from it; the store keeps of an amount
    the nearest hundredths (the amounts written in these examples are
    whole hundredths). *)
Definition surroundings (bookingId : string) : Surroundings :=
  {| validatedAt := fun _ => 500; today := 500; bookingDate := 500;
     bookingUuid := bookingId;
     bookingSeatUuid := fun i => (bookingId +:+ "-" +:+ pretty i)%string;
     decimal := hundredths |}.

Definition request (user : string) (seatIds lockIds : list string) : BookingRequest :=
  {| req_userId := user; req_eventId := "E1"; req_seatIds := seatIds;
     req_lockIds := lockIds; req_paymentIntentId := Some "pi_1"%string |}.

Definition a_booking (st : BookingStatus.t) : Booking :=
  {| bk_id := "B1"; bk_userId := "U1"; bk_eventId := "E1"; bk_totalPrice := 5000;
     bk_status := st; bk_paymentIntentId := Some "pi_1"%string; bk_bookingDate := 100;
     bk_confirmedAt := None; bk_cancelledAt := None; bk_cancellationReason := None |}.

(** A store holding booking B1 of seat S1 in status [st], the seat marked
    BOOKED, [available] of [capacity] seats left. *)
Definition store_with_booking (st : BookingStatus.t) (capacity available : Z) : Database :=
  {| events := {[ "E1"%string := event capacity available (Some 5000) ]};
     seats := [ seat "S1" SeatStatus.BOOKED None; seat "S2" SeatStatus.AVAILABLE None;
                seat "S3" SeatStatus.AVAILABLE None; seat "S4" SeatStatus.AVAILABLE None ];
     bookings := {[ "B1"%string := a_booking st ]};
     booking_seats :=
       [ {| bs_id := "BS0"; bs_bookingId := "B1"; bs_seatId := "S1";
            bs_priceAtBooking := 5000 |} ] |}.

(** A store without any event. *)
Definition no_event : Database :=
  {| events := ∅; seats := four_seats; bookings := ∅; booking_seats := [] |}.

End Fixture.

(** The store with the status of every seat row replaced by [status_of]
    that row. *)
Definition restatus (status_of : Seat -> SeatStatus.t) (db : Database) : Database :=
  {| events := events db;
     seats := (fun s => set_seat_status (status_of s) s) <$> seats db;
     bookings := bookings db; booking_seats := booking_seats db |}.


(** ** SeatLockService.ts: the scans *)

Definition getUserLocks (this : SeatLockService) (now : Z) (user : string) : list SeatLock :=
  match AWS.scan (dynamoDB this)
          (fun item => bool_decide (userId item = user) && bool_decide (expiresAt item > now)) with
  | AWS.Resolved found => found
  | AWS.Rejected _ => []
  end.

(** One turn of the loop of [cleanupExpiredLocks]: the delete carries no
    condition; a rejected delete is logged and skipped. *)
Definition cleanup_step (acc : nat * SeatLockService) (lock : SeatLock)
    : nat * SeatLockService :=
  let '(deletedCount, this) := acc in
  match AWS.delete (dynamoDB this) (seatId lock) (fun _ => true) with
  | (AWS.Resolved _, d) => (S deletedCount, with_dynamoDB this d)
  | (AWS.Rejected _, d) => (deletedCount, with_dynamoDB this d)
  end.

Definition cleanupExpiredLocks (this : SeatLockService) (now : Z) : nat * SeatLockService :=
  match AWS.scan (dynamoDB this) (fun item => bool_decide (expiresAt item <= now)) with
  | AWS.Resolved expiredLocks => fold_left cleanup_step expiredLocks (0%nat, this)
  | AWS.Rejected _ => (0%nat, this)
  end.

(** Every item of the table is stored under its own [seatId], the
    partition key. *)
Definition keyed_by_seatId (this : SeatLockService) : Prop :=
  forall key item, AWS.items (dynamoDB this) !! key = Some item -> seatId item = key.

(** ** Entities: virtual fields *)

Definition soldSeats (this : Event) : Z := ev_maxCapacity this - ev_availableSeats this.

Definition isSoldOut (this : Event) : bool := bool_decide (ev_availableSeats this = 0).

(** ** CacheService.ts: the seat-availability entries *)

(** The [seats:<eventId>] keys of the Redis instance, and whether it
    answers; a command to an instance that does not answer is caught and
    logged by the service. *)
Record CacheService := {
  seatAvailability : gmap string (list Seat);
  redisUp : bool
}.

Definition getCachedSeatAvailability (this : CacheService) (event : string)
    : option (list Seat) :=
  if redisUp this then seatAvailability this !! event else None.

Definition cacheSeatAvailability (this : CacheService) (event : string) (seatData : list Seat)
    : CacheService :=
  if redisUp this
  then {| seatAvailability := <[event := seatData]> (seatAvailability this);
          redisUp := redisUp this |}
  else this.

Definition invalidateSeatAvailabilityCache (this : CacheService) (event : string)
    : CacheService :=
  if redisUp this
  then {| seatAvailability := delete event (seatAvailability this); redisUp := redisUp this |}
  else this.

(** ** SeatResolver.ts *)

(** [venueSeats] are the seat rows of the venue of the event, as the join of
    the query finds them; [clock index] is the time at the lock check of the
    [index]-th AVAILABLE row. *)
Definition availableSeats (cache : CacheService) (locks : SeatLockService)
    (venueSeats : list Seat) (clock : nat -> Z) (event : string)
    : list Seat * CacheService :=
  match getCachedSeatAvailability cache event with
  | Some cachedSeats => (cachedSeats, cache)
  | None =>
      let seats := filter (fun s => seat_status s = SeatStatus.AVAILABLE) venueSeats in
      let checked := imap (fun index s => (isLocked locks (clock index) (seat_id s), s)) seats in
      let availableSeats := snd <$> filter (fun c => fst c = false) checked in
      (availableSeats, cacheSeatAvailability cache event availableSeats)
  end.

Definition lockSeat (cache : CacheService) (locks : SeatLockService) (uuid : string) (now : Z)
    (seat event user : string) : LockResult * SeatLockService * CacheService :=
  let '(result, locks') := acquireLock locks uuid now seat event user in
  (result, locks', invalidateSeatAvailabilityCache cache event).

(** ** EventResolver.ts: the life cycle of an event *)

(** A mutation returns its event or throws an [Error] with a message. *)
Inductive Outcome :=
| Returned (event : Event)
| Thrown (message : string).

Definition set_event_status (st : EventStatus.t) (ev : Event) : Event :=
  {| ev_id := ev_id ev; ev_eventDate := ev_eventDate ev; ev_status := st;
     ev_basePrice := ev_basePrice ev; ev_maxCapacity := ev_maxCapacity ev;
     ev_availableSeats := ev_availableSeats ev |}.

(** [repository.save(event)] *)
Definition save_event (db : Database) (ev : Event) : Database :=
  {| events := <[ev_id ev := ev]> (events db); seats := seats db;
     bookings := bookings db; booking_seats := booking_seats db |}.

(** Saving a loaded event whose status alone was changed updates that
    column. *)
Definition publishEvent (db : Database) (id : string) : Outcome * Database :=
  match events db !! id with
  | None => (Thrown "Event not found", db)
  | Some event =>
      if negb (bool_decide (ev_status event = EventStatus.DRAFT)) then
        (Thrown "Only draft events can be published", db)
      else
        let updated := set_event_status EventStatus.PUBLISHED event in
        (Returned updated, save_event db updated)
  end.

Definition openSales (db : Database) (id : string) : Outcome * Database :=
  match events db !! id with
  | None => (Thrown "Event not found", db)
  | Some event =>
      if negb (bool_decide (ev_status event = EventStatus.PUBLISHED)) then
        (Thrown "Event must be published before opening sales", db)
      else
        let updated := set_event_status EventStatus.SALES_OPEN event in
        (Returned updated, save_event db updated)
  end.

(** ** middleware/errorHandler.ts *)

Record AppError := {
  err_message : string;
  err_stack : option string;
  err_statusCode : option Z;
  err_isOperational : option bool
}.

(** The JSON body of the error response; [body_stack] is absent in
    production. *)
Record ErrorResponse := {
  body_error : bool;
  body_message : string;
  body_statusCode : Z;
  body_timestamp : string;
  body_path : string;
  body_stack : option string
}.

(** [x || d] on an optional count: [undefined] and [0] are falsy. *)
Definition count_or (x : option Z) (d : Z) : Z :=
  match x with
  | Some v => if bool_decide (v = 0) then d else v
  | None => d
  end.

(** [ErrorHandler.handle]: the status and the body it sends.  [nodeEnv] is
    [process.env.NODE_ENV], [timestamp] the ISO time of the response. *)
Definition handle (nodeEnv : option string) (timestamp url : string) (error : AppError)
    : Z * ErrorResponse :=
  let statusCode := count_or (err_statusCode error) 500 in
  let isProduction := bool_decide (nodeEnv = Some "production"%string) in
  let isDeveloperError := negb (default false (err_isOperational error)) in
  let errorResponse :=
    {| body_error := true;
       body_message := if isProduction && isDeveloperError
                       then "Internal Server Error"%string else err_message error;
       body_statusCode := statusCode;
       body_timestamp := timestamp;
       body_path := url;
       body_stack := if negb isProduction then err_stack error else None |} in
  (statusCode, errorResponse).

(** [createError(message, statusCode = 500, isOperational = true)]; the
    stack is the one captured by [new Error]. *)
Definition createError (stack : option string) (message : string)
    (statusCode : option Z) (isOperational : option bool) : AppError :=
  {| err_message := message; err_stack := stack;
     err_statusCode := Some (default 500 statusCode);
     err_isOperational := Some (default true isOperational) |}.

Definition validationError (stack : option string) (message : string) : AppError :=
  createError stack message (Some 400) None.

Definition unauthorizedError (stack : option string) (message : option string) : AppError :=
  createError stack (default "Unauthorized"%string message) (Some 401) None.

Definition forbiddenError (stack : option string) (message : option string) : AppError :=
  createError stack (default "Forbidden"%string message) (Some 403) None.

Definition notFoundError (stack : option string) (message : option string) : AppError :=
  createError stack (default "Resource not found"%string message) (Some 404) None.

Definition conflictError (stack : option string) (message : option string) : AppError :=
  createError stack (default "Conflict"%string message) (Some 409) None.

Definition internalServerError (stack : option string) (message : option string) : AppError :=
  createError stack (default "Internal Server Error"%string message) (Some 500) (Some false).

(** * Properties *)

(** ** The lock registry *)

Lemma with_dynamoDB_same (this : SeatLockService) : with_dynamoDB this (dynamoDB this) = this.
Proof. by destruct this. Qed.

(** What [acquireLock] does while the table answers: the conditional put
    decides what is stored, the date of the log entry whether the stored
    lock is reported. *)
Lemma acquireLock_reachable (this : SeatLockService) uuid now seat event user :
  AWS.reachable (dynamoDB this) = true ->
  acquireLock this uuid now seat event user =
    if acquire_condition now (AWS.items (dynamoDB this) !! seat) then
      (if toISOString_throws (now + lockDurationMs this) then
         {| lr_success := false; lr_lockId := None; lr_expiresAt := None;
            lr_message := Some "Failed to acquire seat lock due to system error"%string |}
       else
         {| lr_success := true; lr_lockId := Some uuid;
            lr_expiresAt := Some (now + lockDurationMs this);
            lr_message := Some "Seat locked successfully"%string |},
       with_dynamoDB this
         {| AWS.items :=
              <[seat := {| seatId := seat; eventId := event; userId := user;
                           lockId := uuid; expiresAt := now + lockDurationMs this;
                           createdAt := now |}]> (AWS.items (dynamoDB this));
            AWS.reachable := true |})
    else
      ({| lr_success := false; lr_lockId := None; lr_expiresAt := None;
          lr_message := Some "Seat is already locked by another user"%string |},
       this).
Proof.
  intros Hup. unfold acquireLock, AWS.put. rewrite Hup.
  destruct (acquire_condition now _).
  - by destruct (toISOString_throws _).
  - by rewrite with_dynamoDB_same.
Qed.

(** While the table does not answer, [acquireLock] fails with the
    system-error message and changes nothing. *)
Lemma acquireLock_unreachable (this : SeatLockService) uuid now seat event user :
  AWS.reachable (dynamoDB this) = false ->
  acquireLock this uuid now seat event user =
    ({| lr_success := false; lr_lockId := None; lr_expiresAt := None;
        lr_message := Some "Failed to acquire seat lock due to system error"%string |},
     this).
Proof.
  intros Hdown. unfold acquireLock, AWS.put. rewrite Hdown.
  by rewrite with_dynamoDB_same.
Qed.





(** C8. While the registry answers, [isLocked] is true exactly when it holds
    an item for the seat with [expires_at > now]; when the read is rejected,
    [isLocked] answers true. *)
Theorem isLocked_fail_closed (this : SeatLockService) (now : Z) (seat : string) :
  (AWS.reachable (dynamoDB this) = true ->
     (isLocked this now seat = true <->
        exists item, AWS.items (dynamoDB this) !! seat = Some item /\ expiresAt item > now))
  /\ (forall code, AWS.get (dynamoDB this) seat = AWS.Rejected code ->
        isLocked this now seat = true).
Proof.
  split.
  - intros Hup. unfold isLocked, AWS.get. rewrite Hup.
    destruct (AWS.items (dynamoDB this) !! seat) as [item|].
    + rewrite bool_decide_eq_true. split.
      * intros H. by exists item.
      * by intros (item' & [= <-] & H).
    + split; [done | by intros (item' & ? & _)].
  - intros code Hget. unfold isLocked. by rewrite Hget.
Qed.

(** The lock expiring at 1000 is reported at 999; the unreachable registry
    reports every seat locked. *)
Lemma isLocked_fail_closed_witness :
  isLocked Fixture.one_lock 999 "S1" = true /\ isLocked Fixture.unreachable 999 "S7" = true.
Proof.
  split.
  - apply (proj1 (isLocked_fail_closed Fixture.one_lock 999 "S1") eq_refl).
    exists (Fixture.lock "S1" "U1" "L1" 1000). split; [reflexivity | reflexivity].
  - apply (proj2 (isLocked_fail_closed Fixture.unreachable 999 "S7") AWS.ServiceUnavailable).
    reflexivity.
Defined.

(** C10. Where [now] equals the [expires_at] of the item a reachable
    registry holds for the seat, [isLocked] answers false and [acquireLock]
    fails with the already-locked result, leaving the registry unchanged. *)
Theorem unlocked_yet_not_acquirable
    (this : SeatLockService) (uuid : string) (now : Z) (seat event user : string)
    (item : SeatLock) :
  AWS.reachable (dynamoDB this) = true ->
  AWS.items (dynamoDB this) !! seat = Some item ->
  expiresAt item = now ->
  isLocked this now seat = false
  /\ acquireLock this uuid now seat event user =
       ({| lr_success := false; lr_lockId := None; lr_expiresAt := None;
           lr_message := Some "Seat is already locked by another user"%string |},
        this).
Proof.
  intros Hup Hitem Hexp. split.
  - unfold isLocked, AWS.get. rewrite Hup, Hitem.
    apply bool_decide_eq_false. lia.
  - rewrite (acquireLock_reachable _ _ _ _ _ _ Hup), Hitem. simpl.
    rewrite bool_decide_eq_false_2; [done | lia].
Qed.

(** At 1000 exactly, the lock that expires at 1000 is neither reported nor
    replaceable. *)
Lemma unlocked_yet_not_acquirable_witness :
  isLocked Fixture.one_lock 1000 "S1" = false
  /\ lr_success (fst (acquireLock Fixture.one_lock "L9" 1000 "S1" "E1" "U2")) = false.
Proof.
  destruct (unlocked_yet_not_acquirable Fixture.one_lock "L9" 1000 "S1" "E1" "U2"
              (Fixture.lock "S1" "U1" "L1" 1000) eq_refl eq_refl eq_refl) as [Hfree Hfail].
  split; [exact Hfree | by rewrite Hfail].
Defined.

(** ** The commit pipeline: shape of its outcomes *)

(** Splits on the guards of a service method, first to last. *)
Ltac split_guards :=
  repeat match goal with
         | |- context [if ?b then _ else _] => destruct b eqn:?
         | |- context [match ?x with Some _ => _ | None => _ end] => destruct x eqn:?
         end.

(** The table [events] has no column [available_seats]: the inventory
    update of both services is refused, whatever the store holds. *)
Lemma inventory_update_refused db id expr :
  update_availableSeats db id "available_seats" expr = None.
Proof. reflexivity. Qed.

(** The writes of a commit never all go through. *)
Lemma commit_writes_refused db event found totalPrice env request :
  commit_writes db event found totalPrice env request = None.
Proof.
  unfold commit_writes.
  destruct (new_booking env request totalPrice) as [b|]; [|reflexivity].
  cbn -[update_availableSeats new_booking_seats].
  destruct (new_booking_seats env event found (bk_id b)) as [rows|]; [|reflexivity].
  cbn -[update_availableSeats]. by rewrite inventory_update_refused.
Qed.

(** Nor do those of a cancellation. *)
Lemma cancel_writes_refused db now b bookingId reason :
  cancel_writes db now b bookingId reason = None.
Proof.
  unfold cancel_writes.
  destruct (update_seat_status _ _ _) as [db2|]; [|reflexivity].
  cbn -[update_availableSeats]. apply inventory_update_refused.
Qed.

(** Every call of [cancelBooking] is answered with a failure and leaves the
    store as it was. *)
Lemma cancelBooking_rolls_back db now bookingId user reason :
  exists msg why, cancelBooking db now bookingId user reason = (failure msg why, db).
Proof.
  unfold cancelBooking.
  destruct (bookings db !! bookingId) as [b|]; [|by do 2 eexists].
  rewrite cancel_writes_refused.
  destruct (bool_decide (bk_userId b = user)); [|by do 2 eexists].
  destruct (bool_decide (bk_status b = BookingStatus.CANCELLED)); by do 2 eexists.
Qed.


(** The guards of [createBooking] in the order they are tested, for a
    request whose two lists have the same length. *)
Lemma createBooking_guards locks db env request :
  length (req_seatIds request) = length (req_lockIds request) ->
  createBooking locks db env request =
    if negb (success (validateSeatLocks locks (validatedAt env) (req_userId request)
                        (req_eventId request) (req_seatIds request) (req_lockIds request)))
    then (failure "One or more seat locks are invalid or have expired" "INVALID_LOCKS",
          db, locks)
    else match events db !! req_eventId request with
         | None => (failure "Event not found" "EVENT_NOT_FOUND", db, locks)
         | Some event =>
             if negb (canPurchaseTickets event (today env)) then
               (failure "Tickets are not available for purchase" "SALES_CLOSED", db, locks)
             else if negb (Nat.eqb (length (findByIds (seats db) (req_seatIds request)))
                                   (length (req_seatIds request))) then
               (failure "Some seats not found" "SEATS_NOT_FOUND", db, locks)
             else
               (failure "Failed to create booking due to system error" "SYSTEM_ERROR",
                db, locks)
         end.
Proof.
  intros Hlen. apply Nat.eqb_eq in Hlen. unfold createBooking. cbv zeta.
  rewrite Hlen. unfold validateSeatLocks. simpl.
  split_guards; try done.
  all: match goal with
       | H : commit_writes _ _ _ _ _ _ = Some _ |- _ => by rewrite commit_writes_refused in H
       end.
Qed.

Lemma createBooking_mismatch locks db env request :
  length (req_seatIds request) <> length (req_lockIds request) ->
  createBooking locks db env request
  = (failure "Mismatch between seat IDs and lock IDs" "INVALID_REQUEST", db, locks).
Proof. intros Hne. apply Nat.eqb_neq in Hne. unfold createBooking. by rewrite Hne. Qed.

(** Every call of [createBooking] is answered with a failure and leaves the
    store and the registry as they were. *)
Lemma createBooking_rolls_back locks db env request :
  exists msg reason,
    createBooking locks db env request = (failure msg reason, db, locks).
Proof.
  destruct (decide (length (req_seatIds request) = length (req_lockIds request)))
    as [Hlen|Hne].
  - rewrite (createBooking_guards _ _ _ _ Hlen).
    destruct (negb (success _)); [by do 2 eexists|].
    destruct (events db !! req_eventId request) as [event|]; [|by do 2 eexists].
    destruct (negb (canPurchaseTickets _ _)); [by do 2 eexists|].
    destruct (negb (Nat.eqb _ _)); by do 2 eexists.
  - rewrite (createBooking_mismatch _ _ _ _ Hne). by do 2 eexists.
Qed.

(** ** Inventory *)

(** C1 (counterexample). One seat is left and U1 commits two seats under
    two valid locks.  The purchase test passes (a seat is left), both seat
    rows are found, and the call is not answered SALES_CLOSED. *)
Lemma more_seats_than_left_is_not_sales_closed :
  let out := createBooking Fixture.four_locks (Fixture.store 10 1) (Fixture.surroundings "B1")
               (Fixture.request "U1" ["S1"; "S2"] ["L1"; "L2"])%string in
  canPurchaseTickets (Fixture.event 10 1 (Some 5000)) 500 = true
  /\ length (findByIds (seats (Fixture.store 10 1)) ["S1"; "S2"]%string) = 2%nat
  /\ failureReason (fst (fst out)) = Some "SYSTEM_ERROR"%string
  /\ failureReason (fst (fst out)) <> Some "SALES_CLOSED"%string.
Proof. vm_compute. repeat split; done. Qed.

(** C1 (as amended). In [createBooking], SALES_CLOSED is the answer of the
    purchase test that precedes every write, and of nothing else: it is
    given exactly when the two lists have the same length, every lock
    validates, the event is found and it cannot be purchased (it is not on
    sale, has no seat left or its date has come); the store and the
    registry are then as they were.  An event that can be purchased is
    never answered SALES_CLOSED, however many seats are asked.  No call
    takes the [available_seats] of an event below zero. *)
Theorem sales_closed_is_the_purchase_guard
    (locks : SeatLockService) (db : Database) (env : Surroundings)
    (request : BookingRequest) :
  let out := createBooking locks db env request in
  (failureReason (fst (fst out)) = Some "SALES_CLOSED"%string <->
     length (req_seatIds request) = length (req_lockIds request)
     /\ success (validateSeatLocks locks (validatedAt env) (req_userId request)
                   (req_eventId request) (req_seatIds request) (req_lockIds request)) = true
     /\ exists event, events db !! req_eventId request = Some event
                      /\ canPurchaseTickets event (today env) = false)
  /\ (failureReason (fst (fst out)) = Some "SALES_CLOSED"%string ->
        out = (failure "Tickets are not available for purchase" "SALES_CLOSED", db, locks))
  /\ (forall event, events db !! req_eventId request = Some event ->
        canPurchaseTickets event (today env) = true ->
        failureReason (fst (fst out)) <> Some "SALES_CLOSED"%string)
  /\ (forall id event', events (snd (fst out)) !! id = Some event' ->
        exists event, events db !! id = Some event
                      /\ (0 <= ev_availableSeats event -> 0 <= ev_availableSeats event')).
Proof.
  intros out. subst out.
  assert (Hiff :
            failureReason (fst (fst (createBooking locks db env request)))
            = Some "SALES_CLOSED"%string ->
            (length (req_seatIds request) = length (req_lockIds request)
             /\ success (validateSeatLocks locks (validatedAt env) (req_userId request)
                           (req_eventId request) (req_seatIds request) (req_lockIds request))
                = true
             /\ exists event, events db !! req_eventId request = Some event
                              /\ canPurchaseTickets event (today env) = false)
            /\ createBooking locks db env request
               = (failure "Tickets are not available for purchase" "SALES_CLOSED", db, locks)).
  { destruct (decide (length (req_seatIds request) = length (req_lockIds request)))
      as [Hlen|Hne]; [|by rewrite (createBooking_mismatch _ _ _ _ Hne)].
    rewrite (createBooking_guards _ _ _ _ Hlen).
    destruct (success (validateSeatLocks _ _ _ _ _ _)) eqn:Hval; simpl; [|done].
    destruct (events db !! req_eventId request) as [event|] eqn:Hev; [|done].
    destruct (canPurchaseTickets event (today env)) eqn:Hcan; simpl.
    - by destruct (negb (Nat.eqb _ _)).
    - intros _. split; [|done]. split; [done|]. split; [done|]. by exists event. }
  split; [split|split; [|split]].
  - intros H. by apply Hiff.
  - intros (Hlen & Hval & event & Hev & Hcan).
    by rewrite (createBooking_guards _ _ _ _ Hlen), Hval, Hev, Hcan.
  - intros H. by apply Hiff.
  - intros event Hev Hcan H.
    destruct (Hiff H) as ((_ & _ & event' & Hev' & Hcan') & _). congruence.
  - intros id event'.
    destruct (createBooking_rolls_back locks db env request) as (msg & why & ->). simpl.
    intros Hev. by exists event'.
Qed.



(** ** Locks held at commit *)



(** [validateLock] answers true only for a stored, unexpired item of the
    same user and lock identifier, read from a registry that answered. *)
Lemma validateLock_true locks now seat user lock :
  validateLock locks now seat user (Some lock) = true ->
  AWS.reachable (dynamoDB locks) = true
  /\ exists item,
       AWS.items (dynamoDB locks) !! seat = Some item
       /\ userId item = user /\ lockId item = lock /\ expiresAt item > now.
Proof.
  unfold validateLock, getLockInfo, AWS.get.
  destruct (AWS.reachable (dynamoDB locks)); [|done].
  destruct (AWS.items (dynamoDB locks) !! seat) as [item|]; [|done].
  destruct (bool_decide (expiresAt item > now)) eqn:Hlive; [|done].
  intros [Huser Hlock]%andb_true_iff.
  apply bool_decide_eq_true in Hlive, Huser, Hlock.
  split; [done|]. exists item. by injection Hlock as ->.
Qed.



(** ** Pricing: the total as a sum *)

Lemma fold_left_add_map {A} (price : A -> float) (l : list A) (start : float) :
  fold_left (fun total x => (total + price x)%float) l start
  = fold_left PrimFloat.add (map price l) start.
Proof.
  revert start. induction l as [|x l IH]; intros start; simpl; [done|]. apply IH.
Qed.

(** [calculateTotalPrice] is the left-to-right binary64 sum of the seat
    prices. *)
Lemma calculateTotalPrice_sum event found :
  calculateTotalPrice event found = sum_from_left (map (calculateSeatPrice event) found).
Proof. unfold calculateTotalPrice, sum_from_left. apply fold_left_add_map. Qed.

(** ** Guards of the commit pipeline *)

(** C3 (counterexample). Seat S1 is under MAINTENANCE and U1 holds a valid
    lock on it.  U1's commit of S1 loads the one row asked for, whose
    status is not AVAILABLE, and is not answered SEATS_NOT_AVAILABLE. *)
Lemma seat_under_maintenance_is_not_answered_unavailable :
  let db :=
    {| events := events (Fixture.store 10 10);
       seats := [ Fixture.seat "S1" SeatStatus.MAINTENANCE None;
                  Fixture.seat "S2" SeatStatus.AVAILABLE None ];
       bookings := ∅; booking_seats := [] |} in
  let out := createBooking Fixture.one_lock db (Fixture.surroundings "B1")
               (Fixture.request "U1" ["S1"] ["L1"])%string in
  seat_status <$> findByIds (seats db) ["S1"%string] = [SeatStatus.MAINTENANCE]
  /\ failureReason (fst (fst out)) = Some "SYSTEM_ERROR"%string
  /\ failureReason (fst (fst out)) <> Some "SEATS_NOT_AVAILABLE"%string.
Proof. vm_compute. repeat split; done. Qed.

Lemma findByIds_restatus status_of table ids :
  findByIds ((fun s => set_seat_status (status_of s) s) <$> table) ids
  = (fun s => set_seat_status (status_of s) s) <$> findByIds table ids.
Proof.
  unfold findByIds. induction table as [|s table IH]; [done|].
  rewrite fmap_cons, !filter_cons. simpl.
  destruct (decide (seat_id s ∈ ids)); by rewrite IH.
Qed.

(** The answer of [createBooking] does not depend on the status of any
    seat row. *)
Lemma createBooking_ignores_seat_status locks db env request status_of :
  fst (fst (createBooking locks (restatus status_of db) env request))
  = fst (fst (createBooking locks db env request)).
Proof.
  destruct (decide (length (req_seatIds request) = length (req_lockIds request)))
    as [Hlen|Hne].
  - rewrite !(createBooking_guards _ _ _ _ Hlen). simpl.
    rewrite findByIds_restatus, length_fmap.
    destruct (negb (success _)); [done|].
    destruct (events db !! req_eventId request) as [event|]; [|done].
    destruct (negb (canPurchaseTickets _ _)); [done|].
    by destruct (negb (Nat.eqb _ _)).
  - by rewrite !(createBooking_mismatch _ _ _ _ Hne).
Qed.

(** C3 (as amended). [createBooking] answers SEATS_NOT_FOUND exactly when
    the two lists have the same length, every lock validates, the event is
    found and can be purchased, and the number of seat rows found differs
    from the number of seats requested; the store and the registry are
    then as they were, and no booking is created.  The status of the loaded
    seats is not consulted: the answer is the same whatever the status of
    each seat row, and it is never SEATS_NOT_AVAILABLE. *)
Theorem seats_not_found_rolls_back
    (locks : SeatLockService) (db : Database) (env : Surroundings)
    (request : BookingRequest) :
  let out := createBooking locks db env request in
  (failureReason (fst (fst out)) = Some "SEATS_NOT_FOUND"%string <->
     length (req_seatIds request) = length (req_lockIds request)
     /\ success (validateSeatLocks locks (validatedAt env) (req_userId request)
                   (req_eventId request) (req_seatIds request) (req_lockIds request)) = true
     /\ (exists event, events db !! req_eventId request = Some event
                       /\ canPurchaseTickets event (today env) = true)
     /\ length (findByIds (seats db) (req_seatIds request)) <> length (req_seatIds request))
  /\ (failureReason (fst (fst out)) = Some "SEATS_NOT_FOUND"%string ->
        out = (failure "Some seats not found" "SEATS_NOT_FOUND", db, locks)
        /\ bookings (snd (fst out)) = bookings db
        /\ booking_seats (snd (fst out)) = booking_seats db)
  /\ (forall status_of,
        fst (fst (createBooking locks (restatus status_of db) env request))
        = fst (fst (createBooking locks db env request)))
  /\ failureReason (fst (fst out)) <> Some "SEATS_NOT_AVAILABLE"%string.
Proof.
  intros out. subst out.
  assert (Hiff :
            failureReason (fst (fst (createBooking locks db env request)))
            = Some "SEATS_NOT_FOUND"%string ->
            (length (req_seatIds request) = length (req_lockIds request)
             /\ success (validateSeatLocks locks (validatedAt env) (req_userId request)
                           (req_eventId request) (req_seatIds request) (req_lockIds request))
                = true
             /\ (exists event, events db !! req_eventId request = Some event
                               /\ canPurchaseTickets event (today env) = true)
             /\ length (findByIds (seats db) (req_seatIds request))
                <> length (req_seatIds request))
            /\ createBooking locks db env request
               = (failure "Some seats not found" "SEATS_NOT_FOUND", db, locks)).
  { destruct (decide (length (req_seatIds request) = length (req_lockIds request)))
      as [Hlen|Hne]; [|by rewrite (createBooking_mismatch _ _ _ _ Hne)].
    rewrite (createBooking_guards _ _ _ _ Hlen).
    destruct (success (validateSeatLocks _ _ _ _ _ _)) eqn:Hval; simpl; [|done].
    destruct (events db !! req_eventId request) as [event|] eqn:Hev; [|done].
    destruct (canPurchaseTickets event (today env)) eqn:Hcan; simpl; [|done].
    destruct (Nat.eqb _ _) eqn:Hfound; simpl; [done|].
    apply Nat.eqb_neq in Hfound.
    intros _. split; [|done]. split; [done|]. split; [done|]. split; [by exists event|done]. }
  split; [split|split; [|split]].
  - intros H. by apply Hiff.
  - intros (Hlen & Hval & (event & Hev & Hcan) & Hfound).
    apply Nat.eqb_neq in Hfound.
    by rewrite (createBooking_guards _ _ _ _ Hlen), Hval, Hev, Hcan, Hfound.
  - intros H. destruct (Hiff H) as [_ ->]. done.
  - intros status_of. apply createBooking_ignores_seat_status.
  - by destruct (createBooking_rolls_back locks db env request)
      as (msg & why & Hrun); rewrite Hrun; simpl;
      destruct (decide (length (req_seatIds request) = length (req_lockIds request)))
        as [Hlen|Hne];
      [rewrite (createBooking_guards _ _ _ _ Hlen) in Hrun; revert Hrun; split_guards;
       intros [= <- <-]
      |rewrite (createBooking_mismatch _ _ _ _ Hne) in Hrun; injection Hrun as <- <-].
Qed.

(** C4 (counterexample). Neither an empty request nor one that names seat
    S1 twice is answered INVALID_REQUEST: the first reaches the event
    lookup, the second the seat count. *)
Lemma empty_and_duplicate_requests_pass_validation :
  failureReason
    (fst (fst (createBooking Fixture.one_lock Fixture.no_event (Fixture.surroundings "B1")
                 (Fixture.request "U1" [] []))))
  = Some "EVENT_NOT_FOUND"%string
  /\ failureReason
       (fst (fst (createBooking Fixture.one_lock (Fixture.store 10 10)
                    (Fixture.surroundings "B1")
                    (Fixture.request "U1" ["S1"; "S1"] ["L1"; "L1"])%string)))
     = Some "SEATS_NOT_FOUND"%string.
Proof. vm_compute. done. Qed.

(** C4 (as amended). [createBooking] answers INVALID_REQUEST exactly when
    [|seat_ids| <> |lock_ids|], and then without touching the store or the
    registry.  A request with an empty [seat_ids], or with a duplicate in
    it, is refused as well and changes nothing, but (its two lists having
    equal lengths) under another failure reason. *)
Theorem invalid_request_iff_length_mismatch
    (locks : SeatLockService) (db : Database) (env : Surroundings)
    (request : BookingRequest) :
  let out := createBooking locks db env request in
  (failureReason (fst (fst out)) = Some "INVALID_REQUEST"%string <->
     length (req_seatIds request) <> length (req_lockIds request))
  /\ (length (req_seatIds request) <> length (req_lockIds request) ->
        out = (failure "Mismatch between seat IDs and lock IDs" "INVALID_REQUEST", db, locks))
  /\ (req_seatIds request = [] \/ ~ NoDup (req_seatIds request) ->
        success (fst (fst out)) = false /\ snd (fst out) = db /\ snd out = locks).
Proof.
  intros out. subst out.
  split; [|split; [apply createBooking_mismatch|]].
  - split; [|by intros Hne; rewrite (createBooking_mismatch _ _ _ _ Hne)].
    destruct (decide (length (req_seatIds request) = length (req_lockIds request)))
      as [Heq|Hne]; [|done].
    rewrite (createBooking_guards _ _ _ _ Heq).
    split_guards; simpl; done.
  - intros _.
    by destruct (createBooking_rolls_back locks db env request) as (msg & why & ->).
Qed.

(** Two seats against one lock identifier. *)
Lemma invalid_request_iff_length_mismatch_witness :
  createBooking Fixture.four_locks (Fixture.store 10 10) (Fixture.surroundings "B1")
    (Fixture.request "U1" ["S1"; "S2"] ["L1"])%string
  = (failure "Mismatch between seat IDs and lock IDs" "INVALID_REQUEST",
     Fixture.store 10 10, Fixture.four_locks).
Proof.
  apply (invalid_request_iff_length_mismatch Fixture.four_locks (Fixture.store 10 10)
           (Fixture.surroundings "B1") (Fixture.request "U1" ["S1"; "S2"] ["L1"])%string).
  simpl. lia.
Defined.

(** ** Booking status *)

(** C7 (counterexample). Booking B1 is REFUNDED and its owner cancels it:
    the call is not answered ALREADY_CANCELLED.  Booking B1 is CANCELLED
    and is confirmed under another payment intent than its own: the call is
    not answered INVALID_STATUS. *)
Lemma terminal_bookings_refused_under_other_reasons :
  let refunded := Fixture.store_with_booking BookingStatus.REFUNDED 3 2 in
  let cancelled := Fixture.store_with_booking BookingStatus.CANCELLED 3 3 in
  bk_status <$> bookings refunded !! "B1"%string = Some BookingStatus.REFUNDED
  /\ failureReason (fst (cancelBooking refunded 600 "B1" "U1" None))
     = Some "SYSTEM_ERROR"%string
  /\ bk_status <$> bookings cancelled !! "B1"%string = Some BookingStatus.CANCELLED
  /\ failureReason (fst (confirmBooking cancelled 600 "B1" "pi_2"))
     = Some "BOOKING_NOT_FOUND"%string.
Proof. vm_compute. done. Qed.

(** C7 (as amended). On a stored booking, [confirmBooking] changes the
    status only from PENDING to CONFIRMED, and [cancelBooking] only from
    PENDING or CONFIRMED to CANCELLED; neither produces REFUNDED.
    CANCELLED and REFUNDED are terminal: both operations fail on such a
    booking and leave the store as it was.  Confirm, called with the
    payment intent of the booking, then answers INVALID_STATUS; cancel,
    called by the owner, answers ALREADY_CANCELLED for a CANCELLED booking,
    and for no other. *)
Theorem booking_status_transitions
    (db : Database) (now : Z) (bookingId : string) (b : Booking) :
  bookings db !! bookingId = Some b ->
  (forall paymentIntentId,
     let out := confirmBooking db now bookingId paymentIntentId in
     (exists b', bookings (snd out) !! bookingId = Some b'
        /\ (bk_status b' = bk_status b
            \/ bk_status b = BookingStatus.PENDING
               /\ bk_status b' = BookingStatus.CONFIRMED))
     /\ (bk_status b <> BookingStatus.PENDING ->
           snd out = db
           /\ success (fst out) = false
           /\ (bk_paymentIntentId b = Some paymentIntentId ->
                 fst out = failure "Booking is not in pending status" "INVALID_STATUS")))
  /\ (forall user reason,
        let out := cancelBooking db now bookingId user reason in
        (exists b', bookings (snd out) !! bookingId = Some b'
           /\ (bk_status b' = bk_status b
               \/ (bk_status b = BookingStatus.PENDING
                   \/ bk_status b = BookingStatus.CONFIRMED)
                  /\ bk_status b' = BookingStatus.CANCELLED))
        /\ (bk_status b = BookingStatus.CANCELLED \/ bk_status b = BookingStatus.REFUNDED ->
              snd out = db /\ success (fst out) = false)
        /\ (bk_status b = BookingStatus.CANCELLED -> bk_userId b = user ->
              fst out = failure "Booking is already cancelled" "ALREADY_CANCELLED")
        /\ (bk_status b <> BookingStatus.CANCELLED ->
              failureReason (fst out) <> Some "ALREADY_CANCELLED"%string)).
Proof.
  intros Hb. split.
  - intros pid out. subst out. unfold confirmBooking. rewrite Hb.
    destruct (bool_decide (bk_paymentIntentId b = Some pid)) eqn:Hpid; simpl.
    + destruct (bool_decide (bk_status b = BookingStatus.PENDING)) eqn:Hst; simpl.
      * apply bool_decide_eq_true in Hst. split; [|done].
        exists (confirm_fields now b). rewrite lookup_alter_eq, Hb. split; [done|].
        right. done.
      * apply bool_decide_eq_false in Hst. split; [exists b; by split; [|left]|].
        done.
    + apply bool_decide_eq_false in Hpid. split; [exists b; by split; [|left]|].
      done.
  - intros user reason out. subst out.
    assert (Hsame : snd (cancelBooking db now bookingId user reason) = db
                    /\ success (fst (cancelBooking db now bookingId user reason)) = false).
    { by destruct (cancelBooking_rolls_back db now bookingId user reason)
        as (msg & why & ->). }
    destruct Hsame as [Hdb Hfail]. rewrite Hdb.
    split; [exists b; by split; [|left]|]. split; [done|].
    unfold cancelBooking. rewrite Hb, cancel_writes_refused.
    destruct (bool_decide (bk_userId b = user)) eqn:Huser; simpl.
    + destruct (bool_decide (bk_status b = BookingStatus.CANCELLED)) eqn:Hst; simpl.
      * apply bool_decide_eq_true in Hst. by split.
      * apply bool_decide_eq_false in Hst. by split.
    + apply bool_decide_eq_false in Huser. by split.
Qed.

(** A CANCELLED booking is refused by both operations. *)
Lemma booking_status_transitions_witness :
  let db := Fixture.store_with_booking BookingStatus.CANCELLED 3 3 in
  confirmBooking db 600 "B1" "pi_1"
  = (failure "Booking is not in pending status" "INVALID_STATUS", db)
  /\ cancelBooking db 600 "B1" "U1" None
     = (failure "Booking is already cancelled" "ALREADY_CANCELLED", db).
Proof.
  intros db.
  destruct (booking_status_transitions db 600 "B1"
              (Fixture.a_booking BookingStatus.CANCELLED) eq_refl) as [Hconfirm Hcancel].
  split.
  - destruct (Hconfirm "pi_1"%string) as (_ & Hterminal).
    destruct Hterminal as (Hdb & _ & Hres); [discriminate|].
    specialize (Hres eq_refl).
    destruct (confirmBooking db 600 "B1" "pi_1") as [r db']. simpl in *. congruence.
  - destruct (Hcancel "U1"%string None) as (_ & Hterminal & Hres & _).
    destruct (Hterminal (or_introl eq_refl)) as (Hdb & _).
    specialize (Hres eq_refl eq_refl).
    destruct (cancelBooking db 600 "B1" "U1" None) as [r db']. simpl in *. congruence.
Defined.

(** ** Pricing *)

(** C9 (counterexample). Base price 0.50 and one seat of modifier 0.25:
    the total the service computes is 0.125, a value with three decimals,
    where the fixed-point rule with banker's rounding gives 12 cents.  Base
    price 0.10 and three seats without modifier: the total is
    0.30000000000000004, not the number of 30 cents. *)
Lemma total_price_is_not_rounded :
  calculateTotalPrice (Fixture.event 10 10 (Some 50))
    [Fixture.seat "S1" SeatStatus.AVAILABLE (Some 25)]
  = 0.125%float
  /\ spec_total_price 50 [25] = 12
  /\ PrimFloat.eqb 0.125 (number_of_cents (spec_total_price 50 [25])) = false
  /\ calculateTotalPrice (Fixture.event 10 10 (Some 10))
       [Fixture.seat "S1" SeatStatus.AVAILABLE None;
        Fixture.seat "S2" SeatStatus.AVAILABLE None;
        Fixture.seat "S3" SeatStatus.AVAILABLE None]
     = 0x1.3333333333334p-2%float
  /\ spec_total_price 10 [100; 100; 100] = 30
  /\ PrimFloat.eqb 0x1.3333333333334p-2
       (number_of_cents (spec_total_price 10 [100; 100; 100])) = false.
Proof. vm_compute. done. Qed.

Lemma findByIds_same_ids table ids ids' :
  (forall id, id ∈ ids <-> id ∈ ids') -> findByIds table ids = findByIds table ids'.
Proof.
  intros Hsame. unfold findByIds. induction table as [|s table IH]; [done|].
  rewrite !filter_cons, IH.
  destruct (decide (seat_id s ∈ ids)) as [Hin|Hout];
    destruct (decide (seat_id s ∈ ids')) as [Hin'|Hout']; try done.
  - by apply Hsame in Hin.
  - by apply Hsame in Hin'.
Qed.

(** C9 (as amended). [calculateTotalPrice] returns, for every event and
    every list of seat rows, the sum of the seat prices in binary64
    floating point, added from the left starting at 0 in the order of the
    rows; the price of a seat is the product of the number of the base
    price (0 where the event has none) and the number of the seat's
    modifier (1 where the seat has none; a stored modifier is used as it
    is).  Neither the products nor the sum are rounded.  The rows priced by
    [createBooking] come in the order of the store, not in that of the
    request. *)
Theorem total_price_is_float_sum (event : Event) (found : list Seat) :
  calculateTotalPrice event found
  = sum_from_left
      (map (fun seat =>
              (match ev_basePrice event with Some base => Number base | None => 0 end
               * match seat_priceModifier seat with Some modifier => Number modifier
                                                | None => 1 end)%float)
           found)
  /\ (forall table ids, findByIds table ids `sublist_of` table)
  /\ (forall table ids ids',
        (forall id, id ∈ ids <-> id ∈ ids') ->
        calculateTotalPrice event (findByIds table ids)
        = calculateTotalPrice event (findByIds table ids')).
Proof.
  split; [|split].
  - rewrite calculateTotalPrice_sum. f_equal.
    apply map_ext. intros seat. unfold calculateSeatPrice.
    by destruct (ev_basePrice event), (seat_priceModifier seat).
  - intros table ids. apply sublist_filter.
  - intros table ids ids' Hsame. by rewrite (findByIds_same_ids table ids ids' Hsame).
Qed.

(** * Further properties of the services *)

(** ** Release, extension and validation of a lock *)

Lemma releaseLock_reachable (this : SeatLockService) seat event user lock :
  AWS.reachable (dynamoDB this) = true ->
  releaseLock this seat event user lock =
    if release_condition user lock (AWS.items (dynamoDB this) !! seat) then
      (true, with_dynamoDB this
               {| AWS.items := delete seat (AWS.items (dynamoDB this));
                  AWS.reachable := true |})
    else (false, this).
Proof.
  intros Hup. unfold releaseLock, AWS.delete. rewrite Hup.
  destruct (release_condition _ _ _); [done|]. by rewrite with_dynamoDB_same.
Qed.

Lemma release_condition_true user lock current :
  release_condition user (Some lock) current = true <->
  exists item, current = Some item /\ userId item = user /\ lockId item = lock.
Proof.
  destruct current as [item|]; simpl.
  - rewrite andb_true_iff, !bool_decide_eq_true. split.
    + intros [Hu [= Hl]]. by exists item.
    + intros (item' & [= <-] & Hu & Hl). by rewrite Hl.
  - split; [done | by intros (? & ? & _)].
Qed.

(** X1. [releaseLock] answers true exactly when the registry answers and
    holds for the seat an item of that user under that lock identifier,
    expired or not; it then removes that item and no other.  In every
    other case it answers false and the registry is as it was. *)
Theorem releaseLock_owner_only
    (this : SeatLockService) (seat event user lock : string) :
  let result := fst (releaseLock this seat event user (Some lock)) in
  let this' := snd (releaseLock this seat event user (Some lock)) in
  (result = true <->
     AWS.reachable (dynamoDB this) = true
     /\ exists item, AWS.items (dynamoDB this) !! seat = Some item
                     /\ userId item = user /\ lockId item = lock)
  /\ (result = true ->
        AWS.items (dynamoDB this') = delete seat (AWS.items (dynamoDB this)))
  /\ (result = false -> this' = this).
Proof.
  intros result this'. subst result this'.
  destruct (AWS.reachable (dynamoDB this)) eqn:Hup.
  - rewrite (releaseLock_reachable _ _ _ _ _ Hup).
    pose proof (release_condition_true user lock (AWS.items (dynamoDB this) !! seat)) as Hc.
    destruct (release_condition _ _ _); simpl.
    + split; [split; [intros _; split; [done | by apply Hc] | done] |]. done.
    + split; [split; [done | intros [_ H]; by apply Hc in H] |]. done.
  - unfold releaseLock, AWS.delete. rewrite Hup. simpl.
    rewrite with_dynamoDB_same. split; [split; [done | by intros [? _]] |]. done.
Qed.

(** The lock of U1 on S1 is released by U1 under L1, also after it
    expired. *)
Lemma releaseLock_owner_only_witness :
  fst (releaseLock Fixture.one_lock "S1" "E1" "U1" (Some "L1"%string)) = true.
Proof.
  apply (proj1 (releaseLock_owner_only Fixture.one_lock "S1" "E1" "U1" "L1")).
  split; [reflexivity|].
  exists (Fixture.lock "S1" "U1" "L1" 1000). by repeat split.
Defined.

(** What [extendLock] does while the table answers: the conditional update
    decides what is stored, the date of the log entry whether the extension
    is reported. *)
Lemma extendLock_reachable (this : SeatLockService) now seat event user lock :
  AWS.reachable (dynamoDB this) = true ->
  extendLock this now seat event user lock =
    if extend_condition user lock now (AWS.items (dynamoDB this) !! seat) then
      (if toISOString_throws (now + lockDurationMs this) then
         {| lr_success := false; lr_lockId := None; lr_expiresAt := None;
            lr_message := Some "Failed to extend lock due to system error"%string |}
       else
         {| lr_success := true; lr_lockId := Some lock;
            lr_expiresAt := Some (now + lockDurationMs this);
            lr_message := Some "Lock extended successfully"%string |},
       with_dynamoDB this
         {| AWS.items :=
              alter (fun item =>
                       {| seatId := seatId item; eventId := eventId item;
                          userId := userId item; lockId := lockId item;
                          expiresAt := now + lockDurationMs this;
                          createdAt := createdAt item |})
                    seat (AWS.items (dynamoDB this));
            AWS.reachable := true |})
    else
      ({| lr_success := false; lr_lockId := None; lr_expiresAt := None;
          lr_message := Some "Cannot extend lock - invalid lock or lock expired"%string |},
       this).
Proof.
  intros Hup. unfold extendLock, AWS.update. rewrite Hup.
  destruct (extend_condition _ _ _ _).
  - by destruct (toISOString_throws _).
  - by rewrite with_dynamoDB_same.
Qed.

Lemma extend_condition_true user lock now current :
  extend_condition user lock now current = true <->
  exists item, current = Some item /\ userId item = user /\ lockId item = lock
               /\ expiresAt item > now.
Proof.
  destruct current as [item|]; simpl.
  - rewrite !andb_true_iff, !bool_decide_eq_true. split.
    + intros [[Hu Hl] He]. by exists item.
    + by intros (item' & [= <-] & Hu & Hl & He).
  - split; [done | by intros (? & ? & _)].
Qed.

(** X2. While the registry answers, the update of [extendLock] is applied
    exactly when the registry holds for the seat an item of that user under
    that lock identifier with [expiresAt > now]: the item then keeps every
    field but [expiresAt], which becomes [now + lockDurationMs], and no
    other item changes; otherwise the call fails with the invalid-lock
    message and the registry is as it was.  A lock that expires at [now]
    exactly, or earlier, is not extended.  The call reports success, with
    the new expiry, exactly when the update was applied and
    [now + lockDurationMs] is a date; where it is not, the update is
    applied all the same and the call fails with the system-error
    message. *)
Theorem extendLock_owner_and_live
    (this : SeatLockService) (now : Z) (seat event user lock : string) :
  AWS.reachable (dynamoDB this) = true ->
  let result := fst (extendLock this now seat event user lock) in
  let this' := snd (extendLock this now seat event user lock) in
  let held :=
    exists item, AWS.items (dynamoDB this) !! seat = Some item
                 /\ userId item = user /\ lockId item = lock /\ expiresAt item > now in
  (lr_success result = true <->
     held /\ toISOString_throws (now + lockDurationMs this) = false)
  /\ (lr_success result = true -> lr_expiresAt result = Some (now + lockDurationMs this))
  /\ (forall item, AWS.items (dynamoDB this) !! seat = Some item -> held ->
        AWS.items (dynamoDB this') !! seat =
          Some {| seatId := seatId item; eventId := eventId item; userId := userId item;
                  lockId := lockId item; expiresAt := now + lockDurationMs this;
                  createdAt := createdAt item |}
        /\ (forall other, other <> seat ->
              AWS.items (dynamoDB this') !! other = AWS.items (dynamoDB this) !! other)
        /\ (toISOString_throws (now + lockDurationMs this) = true ->
              lr_message result = Some "Failed to extend lock due to system error"%string))
  /\ (forall item, AWS.items (dynamoDB this) !! seat = Some item ->
        expiresAt item <= now -> lr_success result = false)
  /\ (~ held ->
        this' = this
        /\ lr_message result
           = Some "Cannot extend lock - invalid lock or lock expired"%string).
Proof.
  intros Hup result this' held. subst result this' held.
  rewrite (extendLock_reachable _ _ _ _ _ _ Hup).
  pose proof (extend_condition_true user lock now (AWS.items (dynamoDB this) !! seat)) as Hc.
  destruct (extend_condition _ _ _ _); simpl.
  - assert (Hheld : exists item, AWS.items (dynamoDB this) !! seat = Some item
                                 /\ userId item = user /\ lockId item = lock
                                 /\ expiresAt item > now) by by apply Hc.
    split; [by destruct (toISOString_throws _); split; [|intros [_ ?]| |]|].
    split; [by destruct (toISOString_throws _)|].
    split.
    { intros item Hitem _. split; [by rewrite lookup_alter_eq, Hitem|]. split.
      - intros other Hne. by rewrite lookup_alter_ne.
      - by intros ->. }
    split; [|done].
    intros item Hitem Hexp.
    destruct Hheld as (item' & Hitem' & _ & _ & Hlive).
    rewrite Hitem in Hitem'. injection Hitem' as <-. lia.
  - assert (Hnot : ~ exists item, AWS.items (dynamoDB this) !! seat = Some item
                                  /\ userId item = user /\ lockId item = lock
                                  /\ expiresAt item > now).
    { intros H. by apply Hc in H. }
    split; [split; [done | by intros [? _]] |].
    split; [done|]. split; [by intros item _ ?|]. split; done.
Qed.

(** U1 extends at 999 the lock that expires at 1000. *)
Lemma extendLock_owner_and_live_witness :
  lr_success (fst (extendLock Fixture.one_lock 999 "S1" "E1" "U1" "L1")) = true.
Proof.
  destruct (extendLock_owner_and_live Fixture.one_lock 999 "S1" "E1" "U1" "L1" eq_refl)
    as (Hiff & _).
  apply Hiff. split; [|reflexivity].
  exists (Fixture.lock "S1" "U1" "L1" 1000). by repeat split.
Defined.

(** X3. [validateLock] answers true exactly when the registry answers and
    holds an unexpired item of that user and lock identifier; on a read
    error it answers false.  A lock that [extendLock] reports extended
    validates at that instant, and where [now + lockDurationMs] is a date
    the converse holds as well: the lock validates exactly when
    [extendLock] would succeed. *)
Theorem validateLock_iff_extendable
    (this : SeatLockService) (now : Z) (seat event user lock : string) :
  (validateLock this now seat user (Some lock) = true <->
     AWS.reachable (dynamoDB this) = true
     /\ exists item, AWS.items (dynamoDB this) !! seat = Some item
                     /\ userId item = user /\ lockId item = lock /\ expiresAt item > now)
  /\ (lr_success (fst (extendLock this now seat event user lock)) = true ->
        validateLock this now seat user (Some lock) = true)
  /\ (toISOString_throws (now + lockDurationMs this) = false ->
        (validateLock this now seat user (Some lock) = true <->
           lr_success (fst (extendLock this now seat event user lock)) = true))
  /\ (AWS.reachable (dynamoDB this) = false ->
        validateLock this now seat user (Some lock) = false).
Proof.
  assert (Hiff : validateLock this now seat user (Some lock) = true <->
                 AWS.reachable (dynamoDB this) = true
                 /\ exists item, AWS.items (dynamoDB this) !! seat = Some item
                                 /\ userId item = user /\ lockId item = lock
                                 /\ expiresAt item > now).
  { split; [apply validateLock_true|].
    intros (Hup & item & Hitem & Hu & Hl & He).
    unfold validateLock, getLockInfo, AWS.get. rewrite Hup, Hitem.
    rewrite (bool_decide_eq_true_2 _ He). simpl.
    rewrite andb_true_iff, !bool_decide_eq_true. by rewrite Hl. }
  assert (Hext : lr_success (fst (extendLock this now seat event user lock)) = true <->
                 (AWS.reachable (dynamoDB this) = true
                  /\ exists item, AWS.items (dynamoDB this) !! seat = Some item
                                  /\ userId item = user /\ lockId item = lock
                                  /\ expiresAt item > now)
                 /\ toISOString_throws (now + lockDurationMs this) = false).
  { destruct (AWS.reachable (dynamoDB this)) eqn:Hup.
    - rewrite (extendLock_reachable _ _ _ _ _ _ Hup).
      pose proof (extend_condition_true user lock now (AWS.items (dynamoDB this) !! seat))
        as Hc.
      destruct (extend_condition _ _ _ _); simpl.
      + destruct (toISOString_throws _); simpl.
        * split; [done | by intros [_ ?]].
        * split; [intros _; split; [split; [done | by apply Hc] | done] | done].
      + split; [done | intros [[_ H] _]; by apply Hc in H].
    - unfold extendLock, AWS.update. rewrite Hup. simpl. split; [done | by intros [[? _] _]]. }
  split; [exact Hiff|]. split; [|split].
  - intros Hok. apply Hiff. by apply Hext.
  - intros Hdate. rewrite Hiff, Hext. split; [by intros H | by intros [H _]].
  - intros Hdown. unfold validateLock, getLockInfo, AWS.get. by rewrite Hdown.
Qed.

(** The lock of U1 validates at 999, where it can be extended. *)
Lemma validateLock_iff_extendable_witness :
  validateLock Fixture.one_lock 999 "S1" "U1" (Some "L1"%string) = true
  /\ lr_success (fst (extendLock Fixture.one_lock 999 "S1" "E1" "U1" "L1")) = true.
Proof.
  destruct (validateLock_iff_extendable Fixture.one_lock 999 "S1" "E1" "U1" "L1")
    as (Hiff & _ & Hsame & _).
  assert (Hvalid : validateLock Fixture.one_lock 999 "S1" "U1" (Some "L1"%string) = true).
  { apply Hiff. split; [reflexivity|].
    exists (Fixture.lock "S1" "U1" "L1" 1000). by repeat split. }
  split; [exact Hvalid|]. by apply (Hsame eq_refl).
Defined.

(** ** How the registry operations compose *)

(** X4. Acquire then release: after a successful [acquireLock], releasing
    the seat with the identifier it returned succeeds and leaves no item
    for the seat; when the seat had no item before the acquire, the table
    is exactly what it was. *)
Theorem acquire_then_release
    (this : SeatLockService) (uuid : string) (now : Z) (seat event user : string) :
  AWS.reachable (dynamoDB this) = true ->
  lr_success (fst (acquireLock this uuid now seat event user)) = true ->
  let held := snd (acquireLock this uuid now seat event user) in
  lr_lockId (fst (acquireLock this uuid now seat event user)) = Some uuid
  /\ fst (releaseLock held seat event user (Some uuid)) = true
  /\ AWS.items (dynamoDB (snd (releaseLock held seat event user (Some uuid)))) !! seat = None
  /\ (AWS.items (dynamoDB this) !! seat = None ->
        AWS.items (dynamoDB (snd (releaseLock held seat event user (Some uuid))))
        = AWS.items (dynamoDB this)).
Proof.
  intros Hup. rewrite (acquireLock_reachable _ _ _ _ _ _ Hup).
  destruct (acquire_condition now _); [|done].
  destruct (toISOString_throws _); simpl; [done|intros _].
  split; [done|].
  rewrite releaseLock_reachable by done. simpl.
  rewrite lookup_insert_eq. simpl. rewrite !bool_decide_eq_true_2 by done. simpl.
  split; [done|]. split; [apply lookup_delete_eq|].
  intros Hnone. rewrite delete_insert_eq. by apply delete_id.
Qed.

(** U2 takes seat S2, free in the registry, and gives it back. *)
Lemma acquire_then_release_witness :
  let held := snd (acquireLock Fixture.one_lock "L9" 100 "S2" "E1" "U2") in
  AWS.items (dynamoDB (snd (releaseLock held "S2" "E1" "U2" (Some "L9"%string))))
  = AWS.items (dynamoDB Fixture.one_lock).
Proof.
  intros held.
  destruct (acquire_then_release Fixture.one_lock "L9" 100 "S2" "E1" "U2" eq_refl)
    as (_ & _ & _ & Hback).
  - vm_compute. reflexivity.
  - apply Hback. reflexivity.
Defined.

(** X5. Exclusion: once [acquireLock] has succeeded at [now], every
    [acquireLock] on that seat at an instant up to and including
    [now + lockDurationMs], by whatever user, fails with the already-locked
    result and leaves the holder's lock in place. *)
Theorem acquired_seat_is_exclusive
    (this : SeatLockService) (uuid uuid' : string) (now now' : Z)
    (seat event event' user user' : string) :
  AWS.reachable (dynamoDB this) = true ->
  lr_success (fst (acquireLock this uuid now seat event user)) = true ->
  now' <= now + lockDurationMs this ->
  let held := snd (acquireLock this uuid now seat event user) in
  acquireLock held uuid' now' seat event' user'
  = ({| lr_success := false; lr_lockId := None; lr_expiresAt := None;
        lr_message := Some "Seat is already locked by another user"%string |},
     held).
Proof.
  intros Hup. rewrite (acquireLock_reachable _ _ _ _ _ _ Hup).
  destruct (acquire_condition now _); [|done].
  destruct (toISOString_throws _); simpl; [done|intros _ Hle].
  rewrite acquireLock_reachable by done. simpl.
  rewrite lookup_insert_eq. simpl.
  rewrite bool_decide_eq_false_2 by lia. done.
Qed.

(** U2 takes the free seat S2 at 100 for 300000 ms; U1 is refused at
    300100. *)
Lemma acquired_seat_is_exclusive_witness :
  lr_success
    (fst (acquireLock (snd (acquireLock Fixture.one_lock "L9" 100 "S2" "E1" "U2"))
            "L10" 300100 "S2" "E1" "U1")) = false.
Proof.
  rewrite (acquired_seat_is_exclusive Fixture.one_lock "L9" "L10" 100 300100
             "S2" "E1" "E1" "U2" "U1").
  - reflexivity.
  - reflexivity.
  - vm_compute. reflexivity.
  - vm_compute. discriminate.
Defined.

(** X6. While the registry answers, [isLocked] and [getLockInfo] agree: a
    seat is reported locked exactly when lock information is returned for
    it.  When the read is rejected they part: [isLocked] reports the seat
    locked while [getLockInfo] returns nothing and [validateLock] refuses
    every claim on it. *)
Theorem isLocked_and_getLockInfo
    (this : SeatLockService) (now : Z) (seat : string) :
  (AWS.reachable (dynamoDB this) = true ->
     (isLocked this now seat = true <-> is_Some (getLockInfo this now seat)))
  /\ (AWS.reachable (dynamoDB this) = false ->
        isLocked this now seat = true
        /\ getLockInfo this now seat = None
        /\ forall user lock, validateLock this now seat user lock = false).
Proof.
  unfold validateLock, isLocked, getLockInfo, AWS.get. split; intros Hup; rewrite Hup.
  - destruct (AWS.items (dynamoDB this) !! seat) as [item|].
    + destruct (bool_decide (expiresAt item > now)).
      * split; [intros _; by eexists | done].
      * split; [done | by intros [? ?]].
    + split; [done | by intros [? ?]].
  - done.
Qed.

(** The lock on S1 at 999, and the registry that does not answer. *)
Lemma isLocked_and_getLockInfo_witness :
  is_Some (getLockInfo Fixture.one_lock 999 "S1")
  /\ isLocked Fixture.unreachable 999 "S1" = true
  /\ getLockInfo Fixture.unreachable 999 "S1" = None.
Proof.
  split.
  - apply (proj1 (isLocked_and_getLockInfo Fixture.one_lock 999 "S1") eq_refl).
    reflexivity.
  - destruct (proj2 (isLocked_and_getLockInfo Fixture.unreachable 999 "S1") eq_refl)
      as (Hlocked & Hinfo & _).
    by split.
Defined.

(** ** Scans of the registry: clean-up and the locks of a user *)

Lemma List_filter_stdpp {A} (f : A -> bool) (l : list A) :
  List.filter f l = filter (fun x => f x = true) l.
Proof.
  induction l as [|x l IH]; [done|]. simpl. rewrite filter_cons, IH.
  destruct (f x) eqn:Hf; case_decide; congruence.
Qed.

(** The items a scan returns are the stored ones that pass the filter. *)
Lemma elem_of_scan (this : SeatLockService) (f : SeatLock -> bool) found item :
  AWS.scan (dynamoDB this) f = AWS.Resolved found ->
  item ∈ found <-> f item = true /\ exists key, AWS.items (dynamoDB this) !! key = Some item.
Proof.
  unfold AWS.scan. destruct (AWS.reachable _); [|done]. intros [= <-].
  rewrite List_filter_stdpp, list_elem_of_filter, list_elem_of_fmap.
  split; intros [Hf H]; (split; [done|]).
  - destruct H as ([key item'] & -> & Hin). exists key. by apply elem_of_map_to_list.
  - destruct H as (key & Hkey). exists (key, item). split; [done|].
    by apply elem_of_map_to_list.
Qed.

Lemma NoDup_scan_keys (this : SeatLockService) (f : SeatLock -> bool) found :
  keyed_by_seatId this ->
  AWS.scan (dynamoDB this) f = AWS.Resolved found ->
  NoDup (seatId <$> found).
Proof.
  intros Hkeyed. unfold AWS.scan. destruct (AWS.reachable _); [|done]. intros [= <-].
  rewrite List_filter_stdpp.
  eapply sublist_NoDup; [|apply fmap_sublist, sublist_filter].
  assert (Heq : seatId <$> (snd <$> map_to_list (AWS.items (dynamoDB this)))
                = fst <$> map_to_list (AWS.items (dynamoDB this))).
  { rewrite <- list_fmap_compose. apply list_fmap_ext.
    intros i [key item] Hin%list_elem_of_lookup_2%elem_of_map_to_list. simpl.
    by apply Hkeyed. }
  rewrite Heq. apply NoDup_fst_map_to_list.
Qed.

Lemma cleanup_step_reachable count (this : SeatLockService) lock :
  AWS.reachable (dynamoDB this) = true ->
  cleanup_step (count, this) lock
  = (S count, with_dynamoDB this
                {| AWS.items := delete (seatId lock) (AWS.items (dynamoDB this));
                   AWS.reachable := true |}).
Proof. intros Hup. unfold cleanup_step, AWS.delete. by rewrite Hup. Qed.

Lemma foldr_delete_delete (m : gmap string SeatLock) key keys :
  foldr delete (delete key m) keys = delete key (foldr delete m keys).
Proof.
  induction keys as [|k ks IH]; simpl; [done|]. by rewrite IH, delete_delete.
Qed.

Lemma cleanup_fold (l : list SeatLock) :
  forall (count : nat) (this : SeatLockService),
    AWS.reachable (dynamoDB this) = true ->
    NoDup (seatId <$> l) ->
    (forall lock, lock ∈ l -> is_Some (AWS.items (dynamoDB this) !! seatId lock)) ->
    let out := fold_left cleanup_step l (count, this) in
    fst out = (count + length l)%nat
    /\ AWS.reachable (dynamoDB (snd out)) = true
    /\ lockDurationMs (snd out) = lockDurationMs this
    /\ AWS.items (dynamoDB (snd out)) = foldr delete (AWS.items (dynamoDB this)) (seatId <$> l)
    /\ (size (AWS.items (dynamoDB (snd out))) + length l)%nat
       = size (AWS.items (dynamoDB this)).
Proof.
  induction l as [|lock l IH]; intros count this Hup Hnodup Hstored.
  - simpl. split; [lia|]. split; [done|]. split; [done|]. split; [done|]. lia.
  - rewrite fmap_cons in Hnodup. apply NoDup_cons in Hnodup as [Hfresh Hnodup].
    change (fold_left cleanup_step (lock :: l) (count, this))
      with (fold_left cleanup_step l (cleanup_step (count, this) lock)).
    rewrite (cleanup_step_reachable _ _ _ Hup).
    set (this1 := with_dynamoDB this _).
    destruct (IH (S count) this1) as (Hcount & Hup' & Httl & Hitems & Hsize); [done|done| |].
    { intros lock' Hin. simpl. rewrite lookup_delete_ne; [apply Hstored; by right|].
      intros Heq. apply Hfresh. rewrite Heq. by apply list_elem_of_fmap_2. }
    cbv zeta. split; [rewrite Hcount; simpl; lia|]. split; [done|]. split; [done|]. split.
    + rewrite Hitems, fmap_cons. simpl. apply foldr_delete_delete.
    + destruct (Hstored lock) as [item Hitem]; [by left|].
      assert (size (AWS.items (dynamoDB this)) <> 0%nat).
      { apply (map_size_ne_0_lookup_2 _ (seatId lock)). by rewrite Hitem. }
      assert (Hdel : size (AWS.items (dynamoDB this1))
                     = Init.Nat.pred (size (AWS.items (dynamoDB this)))).
      { simpl. apply map_size_delete_Some. by rewrite Hitem. }
      simpl length. lia.
Qed.

Lemma one_lock_keyed : keyed_by_seatId Fixture.one_lock.
Proof.
  intros key item Hitem. simpl in Hitem.
  by apply lookup_singleton_Some in Hitem as [<- <-].
Qed.

(** X7. While the registry answers, [cleanupExpiredLocks] removes exactly
    the items with [expiresAt <= now]: what remains are the items that
    were stored with [expiresAt > now], unchanged, and the count returned
    is the number of items removed.  No answer of [isLocked] from [now] on
    is changed by it.  When the scan is rejected it returns 0 and removes
    nothing. *)
Theorem cleanupExpiredLocks_removes_the_expired (this : SeatLockService) (now : Z) :
  keyed_by_seatId this ->
  (AWS.reachable (dynamoDB this) = true ->
     let out := cleanupExpiredLocks this now in
     (forall seat item,
        AWS.items (dynamoDB (snd out)) !! seat = Some item <->
        AWS.items (dynamoDB this) !! seat = Some item /\ expiresAt item > now)
     /\ (fst out + size (AWS.items (dynamoDB (snd out))))%nat
        = size (AWS.items (dynamoDB this))
     /\ (forall t seat, now <= t -> isLocked (snd out) t seat = isLocked this t seat))
  /\ (AWS.reachable (dynamoDB this) = false -> cleanupExpiredLocks this now = (0%nat, this)).
Proof.
  intros Hkeyed. split; intros Hup; unfold cleanupExpiredLocks.
  2: { unfold AWS.scan. by rewrite Hup. }
  destruct (AWS.scan (dynamoDB this) (fun item => bool_decide (expiresAt item <= now)))
    as [found|code] eqn:Hscan; [|unfold AWS.scan in Hscan; by rewrite Hup in Hscan].
  assert (Hstored : forall lock, lock ∈ found ->
                      AWS.items (dynamoDB this) !! seatId lock = Some lock
                      /\ expiresAt lock <= now).
  { intros lock [Hexp [key Hkey]]%(elem_of_scan _ _ _ _ Hscan).
    apply bool_decide_eq_true in Hexp. by rewrite (Hkeyed _ _ Hkey). }
  destruct (cleanup_fold found 0 this Hup (NoDup_scan_keys _ _ _ Hkeyed Hscan))
    as (Hcount & Hup' & _ & Hitems & Hsize).
  { intros lock Hin. destruct (Hstored lock Hin) as [-> _]. by eexists. }
  assert (Hrest : forall seat item,
            AWS.items (dynamoDB (snd (fold_left cleanup_step found (0%nat, this)))) !! seat
            = Some item <->
            AWS.items (dynamoDB this) !! seat = Some item /\ expiresAt item > now).
  { intros seat item. rewrite Hitems, lookup_foldr_delete_Some. split.
    - intros [Hnotin Hitem]. split; [done|].
      destruct (decide (expiresAt item <= now)) as [Hexp|]; [|lia].
      exfalso. apply Hnotin. apply list_elem_of_fmap. exists item.
      rewrite (Hkeyed _ _ Hitem). split; [done|].
      apply (elem_of_scan _ _ _ _ Hscan). split; [by apply bool_decide_eq_true|].
      by exists seat.
    - intros [Hitem Hlive]. split; [|done].
      intros (lock & -> & Hin)%list_elem_of_fmap.
      destruct (Hstored lock Hin) as [Hlock Hexp].
      rewrite Hlock in Hitem. injection Hitem as <-. lia. }
  cbv zeta. split; [exact Hrest|]. split; [rewrite Hcount; simpl; lia|].
  intros t seat Ht. unfold isLocked, AWS.get. rewrite Hup, Hup'.
  destruct (AWS.items (dynamoDB (snd (fold_left cleanup_step found (0%nat, this)))) !! seat)
    as [item|] eqn:Hafter.
  - apply Hrest in Hafter as [-> _]. done.
  - destruct (AWS.items (dynamoDB this) !! seat) as [item|] eqn:Hbefore; [|done].
    destruct (decide (expiresAt item > now)) as [Hlive|Hexp].
    + assert (Hsome := proj2 (Hrest seat item) (conj Hbefore Hlive)). congruence.
    + symmetry. apply bool_decide_eq_false. lia.
Qed.

(** The lock that expires at 1000 is removed by a clean-up at 1000. *)
Lemma cleanupExpiredLocks_removes_the_expired_witness :
  fst (cleanupExpiredLocks Fixture.one_lock 1000) = 1%nat
  /\ AWS.items (dynamoDB (snd (cleanupExpiredLocks Fixture.one_lock 1000))) !! "S1"%string = None.
Proof.
  destruct (proj1 (cleanupExpiredLocks_removes_the_expired Fixture.one_lock 1000
                     one_lock_keyed)
              eq_refl) as (Hrest & Hcount & _).
  split; [reflexivity|].
  destruct (AWS.items (dynamoDB (snd (cleanupExpiredLocks Fixture.one_lock 1000))) !! "S1"%string)
    as [item|] eqn:Hitem; [|reflexivity].
  apply Hrest in Hitem as [Hitem Hlive]. vm_compute in Hitem.
  injection Hitem as <-. vm_compute in Hlive. discriminate.
Defined.

(** X8. Right after a clean-up at [now], and where [now + lockDurationMs]
    is a date, a seat can be acquired at [now] exactly when [isLocked]
    reports it unlocked: no expired item is left to stand in the way of a
    seat that is reported free. *)
Theorem after_cleanup_unlocked_means_acquirable
    (this : SeatLockService) (now : Z) (uuid seat event user : string) :
  keyed_by_seatId this ->
  AWS.reachable (dynamoDB this) = true ->
  toISOString_throws (now + lockDurationMs this) = false ->
  let swept := snd (cleanupExpiredLocks this now) in
  lr_success (fst (acquireLock swept uuid now seat event user)) = true
  <-> isLocked swept now seat = false.
Proof.
  intros Hkeyed Hup Hdate swept. subst swept. unfold cleanupExpiredLocks.
  destruct (AWS.scan (dynamoDB this) (fun item => bool_decide (expiresAt item <= now)))
    as [found|code] eqn:Hscan; [|unfold AWS.scan in Hscan; by rewrite Hup in Hscan].
  assert (Hstored : forall lock, lock ∈ found ->
                      is_Some (AWS.items (dynamoDB this) !! seatId lock)).
  { intros lock [_ [key Hkey]]%(elem_of_scan _ _ _ _ Hscan).
    rewrite (Hkeyed _ _ Hkey). by eexists. }
  destruct (cleanup_fold found 0 this Hup (NoDup_scan_keys _ _ _ Hkeyed Hscan) Hstored)
    as (_ & Hup' & Httl & Hitems & _).
  rewrite (acquireLock_reachable _ _ _ _ _ _ Hup'), Httl, Hdate.
  unfold isLocked, AWS.get. rewrite Hup'.
  destruct (AWS.items (dynamoDB (snd (fold_left cleanup_step found (0%nat, this)))) !! seat)
    as [item|] eqn:Hafter; simpl; [|done].
  rewrite Hitems in Hafter. apply lookup_foldr_delete_Some in Hafter as [Hnotin Hitem].
  assert (Hlive : expiresAt item > now).
  { destruct (decide (expiresAt item <= now)) as [Hexp|]; [|lia].
    exfalso. apply Hnotin. apply list_elem_of_fmap. exists item.
    rewrite (Hkeyed _ _ Hitem). split; [done|].
    apply (elem_of_scan _ _ _ _ Hscan). split; [by apply bool_decide_eq_true|].
    by exists seat. }
  rewrite (bool_decide_eq_false_2 (expiresAt item < now)) by lia.
  rewrite (bool_decide_eq_true_2 (expiresAt item > now)) by lia. done.
Qed.

(** At 1000 the expired lock on S1 is swept, and S1 is acquired. *)
Lemma after_cleanup_unlocked_means_acquirable_witness :
  lr_success (fst (acquireLock (snd (cleanupExpiredLocks Fixture.one_lock 1000))
                     "L9" 1000 "S1" "E1" "U2")) = true.
Proof.
  apply (after_cleanup_unlocked_means_acquirable Fixture.one_lock 1000 "L9" "S1" "E1" "U2").
  - exact one_lock_keyed.
  - reflexivity.
  - reflexivity.
  - vm_compute. reflexivity.
Defined.

(** X9. While the registry answers, [getUserLocks] returns exactly the
    stored items of that user with [expiresAt > now], and each of them
    validates for that user at that instant; when the scan is rejected it
    returns the empty list. *)
Theorem getUserLocks_are_the_live_locks_of_the_user
    (this : SeatLockService) (now : Z) (user : string) :
  keyed_by_seatId this ->
  (AWS.reachable (dynamoDB this) = true ->
     forall lock,
       lock ∈ getUserLocks this now user <->
       AWS.items (dynamoDB this) !! seatId lock = Some lock
       /\ userId lock = user /\ expiresAt lock > now)
  /\ (forall lock,
        lock ∈ getUserLocks this now user ->
        validateLock this now (seatId lock) user (Some (lockId lock)) = true)
  /\ (AWS.reachable (dynamoDB this) = false -> getUserLocks this now user = []).
Proof.
  intros Hkeyed. unfold getUserLocks.
  destruct (AWS.scan (dynamoDB this) _) as [found|code] eqn:Hscan.
  - assert (Hup : AWS.reachable (dynamoDB this) = true).
    { unfold AWS.scan in Hscan. by destruct (AWS.reachable (dynamoDB this)). }
    assert (Hfound : forall lock,
              lock ∈ found <->
              AWS.items (dynamoDB this) !! seatId lock = Some lock
              /\ userId lock = user /\ expiresAt lock > now).
    { intros lock. rewrite (elem_of_scan _ _ _ _ Hscan).
      rewrite andb_true_iff, !bool_decide_eq_true. split.
      - intros [[Hu He] [key Hkey]]. by rewrite (Hkeyed _ _ Hkey).
      - intros (Hitem & Hu & He). split; [done|]. by eexists. }
    split; [intros _; exact Hfound|]. split; [|by rewrite Hup].
    intros lock (Hitem & Hu & He)%Hfound.
    unfold validateLock, getLockInfo, AWS.get. rewrite Hup, Hitem.
    rewrite (bool_decide_eq_true_2 _ He). simpl.
    apply andb_true_iff. split; by apply bool_decide_eq_true.
  - split; [|split; [|done]].
    + intros Hup. unfold AWS.scan in Hscan. by rewrite Hup in Hscan.
    + intros lock Hin. by apply elem_of_nil in Hin.
Qed.

(** At 999, U1 holds the lock on S1. *)
Lemma getUserLocks_are_the_live_locks_of_the_user_witness :
  Fixture.lock "S1" "U1" "L1" 1000 ∈ getUserLocks Fixture.one_lock 999 "U1".
Proof.
  apply (proj1 (getUserLocks_are_the_live_locks_of_the_user Fixture.one_lock 999 "U1"
                  one_lock_keyed) eq_refl).
  by repeat split.
Defined.

(** ** The commit pipeline: what a call leaves behind *)

(** X10. All or nothing: a [createBooking] that does not succeed names a
    failure reason, returns no booking and leaves the store and the
    registry exactly as they were; one that succeeds returns the stored
    booking and no failure reason. *)
Theorem createBooking_all_or_nothing
    (locks : SeatLockService) (db : Database) (env : Surroundings)
    (request : BookingRequest) :
  let out := createBooking locks db env request in
  (success (fst (fst out)) = false ->
     snd (fst out) = db /\ snd out = locks
     /\ booking (fst (fst out)) = None
     /\ is_Some (failureReason (fst (fst out))))
  /\ (success (fst (fst out)) = true ->
        failureReason (fst (fst out)) = None
        /\ is_Some (booking (fst (fst out)))
        /\ booking (fst (fst out)) = bookings (snd (fst out)) !! bookingUuid env).
Proof.
  intros out. subst out.
  destruct (createBooking_rolls_back locks db env request) as (msg & why & ->). simpl.
  split; [|done]. intros _. by repeat split.
Qed.

(** The commit with one lock identifier for two seats changes nothing. *)
Lemma createBooking_all_or_nothing_witness :
  snd (fst (createBooking Fixture.four_locks (Fixture.store 10 10) (Fixture.surroundings "B1")
              (Fixture.request "U1" ["S1"; "S2"] ["L1"])%string))
  = Fixture.store 10 10.
Proof.
  apply (createBooking_all_or_nothing Fixture.four_locks (Fixture.store 10 10)
           (Fixture.surroundings "B1") (Fixture.request "U1" ["S1"; "S2"] ["L1"])%string).
  reflexivity.
Defined.

(** X27. No call of [createBooking] commits.  Every call fails, returns no
    booking and leaves the store and the registry as they were, under one
    of six failure reasons; a request that passes every guard (lists of
    equal length, valid locks, an event that can be purchased, every seat
    row found) is answered SYSTEM_ERROR: its inventory update names a
    column [available_seats], which the table of events does not have. *)
Theorem createBooking_never_commits
    (locks : SeatLockService) (db : Database) (env : Surroundings)
    (request : BookingRequest) :
  let out := createBooking locks db env request in
  success (fst (fst out)) = false
  /\ booking (fst (fst out)) = None
  /\ snd (fst out) = db /\ snd out = locks
  /\ failureReason (fst (fst out))
     ∈ [Some "INVALID_REQUEST"; Some "INVALID_LOCKS"; Some "EVENT_NOT_FOUND";
        Some "SALES_CLOSED"; Some "SEATS_NOT_FOUND"; Some "SYSTEM_ERROR"]%string
  /\ (length (req_seatIds request) = length (req_lockIds request) ->
      success (validateSeatLocks locks (validatedAt env) (req_userId request)
                 (req_eventId request) (req_seatIds request) (req_lockIds request)) = true ->
      (exists event, events db !! req_eventId request = Some event
                     /\ canPurchaseTickets event (today env) = true) ->
      length (findByIds (seats db) (req_seatIds request)) = length (req_seatIds request) ->
      fst (fst out) = failure "Failed to create booking due to system error" "SYSTEM_ERROR").
Proof.
  intros out. subst out.
  destruct (decide (length (req_seatIds request) = length (req_lockIds request)))
    as [Hlen|Hne].
  - rewrite (createBooking_guards _ _ _ _ Hlen).
    destruct (success (validateSeatLocks _ _ _ _ _ _)) eqn:Hval; simpl.
    + destruct (events db !! req_eventId request) as [event|] eqn:Hev.
      * destruct (canPurchaseTickets event (today env)) eqn:Hcan; simpl.
        -- destruct (Nat.eqb _ _) eqn:Hfound; simpl.
           ++ do 4 (split; [done|]). split; [set_solver|done].
           ++ apply Nat.eqb_neq in Hfound. do 4 (split; [done|]). split; [set_solver|done].
        -- do 4 (split; [done|]). split; [set_solver|].
           intros _ _ (event' & [= <-] & Hcan'). congruence.
      * do 4 (split; [done|]). split; [set_solver|]. by intros _ _ (event' & ? & _).
    + do 4 (split; [done|]). split; [set_solver|done].
  - rewrite (createBooking_mismatch _ _ _ _ Hne). simpl.
    do 4 (split; [done|]). split; [set_solver|done].
Qed.

(** The solo purchase: U1 commits S1 under its valid lock L1. *)
Lemma createBooking_never_commits_witness :
  fst (fst (createBooking Fixture.one_lock (Fixture.store 10 10) (Fixture.surroundings "B1")
              (Fixture.request "U1" ["S1"] ["L1"])%string))
  = failure "Failed to create booking due to system error" "SYSTEM_ERROR".
Proof.
  apply (createBooking_never_commits Fixture.one_lock (Fixture.store 10 10)
           (Fixture.surroundings "B1") (Fixture.request "U1" ["S1"] ["L1"])%string).
  - reflexivity.
  - vm_compute. reflexivity.
  - exists (Fixture.event 10 10 (Some 5000)). split; [reflexivity | vm_compute; reflexivity].
  - vm_compute. reflexivity.
Defined.

(** ** Confirmation and cancellation *)

(** X16. [confirmBooking] succeeds exactly for a stored booking that
    carries the given payment-intent identifier and is PENDING.  It then
    sets the status to CONFIRMED and the confirmation date to [now],
    returns that row, and changes nothing else in the store; confirming
    again is refused with INVALID_STATUS.  A refused confirmation leaves
    the store as it was. *)
Theorem confirmBooking_only_pending
    (db : Database) (now now' : Z) (bookingId paymentIntentId : string) :
  let out := confirmBooking db now bookingId paymentIntentId in
  (success (fst out) = true <->
     exists b, bookings db !! bookingId = Some b
               /\ bk_paymentIntentId b = Some paymentIntentId
               /\ bk_status b = BookingStatus.PENDING)
  /\ (forall b, bookings db !! bookingId = Some b -> success (fst out) = true ->
        booking (fst out) = Some (confirm_fields now b)
        /\ bookings (snd out) = <[bookingId := confirm_fields now b]> (bookings db)
        /\ events (snd out) = events db /\ seats (snd out) = seats db
        /\ booking_seats (snd out) = booking_seats db
        /\ confirmBooking (snd out) now' bookingId paymentIntentId
           = (failure "Booking is not in pending status" "INVALID_STATUS", snd out))
  /\ (success (fst out) = false -> snd out = db).
Proof.
  intros out. subst out.
  destruct (bookings db !! bookingId) as [b|] eqn:Hb.
  - assert (Hrun : confirmBooking db now bookingId paymentIntentId
                   = if bool_decide (bk_paymentIntentId b = Some paymentIntentId) then
                       if negb (bool_decide (bk_status b = BookingStatus.PENDING)) then
                         (failure "Booking is not in pending status" "INVALID_STATUS", db)
                       else
                         ({| success := true;
                             booking := bookings (update_booking db bookingId
                                                    (confirm_fields now)) !! bookingId;
                             message := Some "Booking confirmed successfully"%string;
                             failureReason := None |},
                          update_booking db bookingId (confirm_fields now))
                     else (failure "Booking not found or payment intent mismatch"
                             "BOOKING_NOT_FOUND", db)).
    { unfold confirmBooking. by rewrite Hb. }
    rewrite Hrun. clear Hrun.
    destruct (bool_decide (bk_paymentIntentId b = Some paymentIntentId)) eqn:Hpid.
    + destruct (bool_decide (bk_status b = BookingStatus.PENDING)) eqn:Hst; simpl.
      * apply bool_decide_eq_true in Hpid, Hst.
        split; [split; [intros _; by exists b | done] |]. split; [|done].
        intros b' [= <-] _. rewrite lookup_alter_eq, Hb. simpl.
        split; [done|]. split.
        { apply map_eq. intros k. destruct (decide (k = bookingId)) as [->|Hne].
          - by rewrite lookup_alter_eq, lookup_insert_eq, Hb.
          - by rewrite lookup_alter_ne, lookup_insert_ne. }
        do 3 (split; [done|]).
        unfold confirmBooking. simpl. rewrite lookup_alter_eq, Hb. simpl.
        by rewrite bool_decide_eq_true_2.
      * apply bool_decide_eq_false in Hst.
        split; [split; [done | by intros (b' & [= <-] & _ & Hp)] |]. done.
    + apply bool_decide_eq_false in Hpid.
      split; [split; [done | by intros (b' & [= <-] & Hp & _)] |]. done.
  - assert (Hrun : confirmBooking db now bookingId paymentIntentId
                   = (failure "Booking not found or payment intent mismatch"
                        "BOOKING_NOT_FOUND", db)).
    { unfold confirmBooking. by rewrite Hb. }
    rewrite Hrun. simpl. split; [split; [done | by intros (b' & ? & _)] |]. done.
Qed.

(** Booking B1, PENDING under pi_1, is confirmed. *)
Lemma confirmBooking_only_pending_witness :
  success (fst (confirmBooking (Fixture.store_with_booking BookingStatus.PENDING 3 2)
                  600 "B1" "pi_1")) = true.
Proof.
  apply (proj1 (confirmBooking_only_pending
                  (Fixture.store_with_booking BookingStatus.PENDING 3 2) 600 700 "B1" "pi_1")).
  exists (Fixture.a_booking BookingStatus.PENDING). by repeat split.
Defined.

(** X17. [cancelBooking] answers BOOKING_NOT_FOUND, and changes nothing,
    when no booking is stored under the identifier or when the stored
    booking belongs to another user; whatever the reason of a refusal, a
    cancellation that does not succeed leaves the store as it was. *)
Theorem cancelBooking_owner_only
    (db : Database) (now : Z) (bookingId user : string) (reason : option string) :
  let out := cancelBooking db now bookingId user reason in
  ((forall b, bookings db !! bookingId = Some b -> bk_userId b <> user) ->
     out = (failure "Booking not found or unauthorized" "BOOKING_NOT_FOUND", db))
  /\ (success (fst out) = true ->
        exists b, bookings db !! bookingId = Some b /\ bk_userId b = user
                  /\ bk_status b <> BookingStatus.CANCELLED)
  /\ (success (fst out) = false -> snd out = db).
Proof.
  intros out. subst out. unfold cancelBooking.
  destruct (bookings db !! bookingId) as [b|] eqn:Hb; [|done].
  destruct (bool_decide (bk_userId b = user)) eqn:Hu.
  - apply bool_decide_eq_true in Hu.
    destruct (bool_decide (bk_status b = BookingStatus.CANCELLED)) eqn:Hst.
    + split; [intros Hother; by destruct (Hother b eq_refl)|]. done.
    + apply bool_decide_eq_false in Hst.
      destruct (cancel_writes db now b bookingId reason); simpl.
      * split; [intros Hother; by destruct (Hother b eq_refl)|].
        split; [intros _; by exists b | done].
      * split; [intros Hother; by destruct (Hother b eq_refl)|]. done.
  - done.
Qed.

(** U2 cannot cancel the booking of U1. *)
Lemma cancelBooking_owner_only_witness :
  cancelBooking (Fixture.store_with_booking BookingStatus.CONFIRMED 3 2) 600 "B1" "U2" None
  = (failure "Booking not found or unauthorized" "BOOKING_NOT_FOUND",
     Fixture.store_with_booking BookingStatus.CONFIRMED 3 2).
Proof.
  apply (proj1 (cancelBooking_owner_only
                  (Fixture.store_with_booking BookingStatus.CONFIRMED 3 2) 600 "B1" "U2" None)).
  intros b Hb. vm_compute in Hb. injection Hb as <-. discriminate.
Defined.

(** X28. No call of [cancelBooking] commits.  Every call fails and leaves
    the store as it was; the cancellation by its owner of a booking that is
    not CANCELLED is answered SYSTEM_ERROR: its inventory update names a
    column [available_seats], which the table of events does not have. *)
Theorem cancelBooking_never_commits
    (db : Database) (now : Z) (bookingId user : string) (reason : option string) :
  let out := cancelBooking db now bookingId user reason in
  success (fst out) = false
  /\ snd out = db
  /\ (forall b, bookings db !! bookingId = Some b -> bk_userId b = user ->
        bk_status b <> BookingStatus.CANCELLED ->
        fst out = failure "Failed to cancel booking" "SYSTEM_ERROR").
Proof.
  intros out. subst out.
  split; [|split].
  - by destruct (cancelBooking_rolls_back db now bookingId user reason) as (msg & why & ->).
  - by destruct (cancelBooking_rolls_back db now bookingId user reason) as (msg & why & ->).
  - intros b Hb Huser Hst. unfold cancelBooking.
    rewrite Hb, cancel_writes_refused.
    by rewrite (bool_decide_eq_true_2 _ Huser), (bool_decide_eq_false_2 _ Hst).
Qed.

(** U1 cancels the confirmed booking B1 of seat S1. *)
Lemma cancelBooking_never_commits_witness :
  fst (cancelBooking (Fixture.store_with_booking BookingStatus.CONFIRMED 3 2)
         600 "B1" "U1" None)
  = failure "Failed to cancel booking" "SYSTEM_ERROR".
Proof.
  destruct (cancelBooking_never_commits
              (Fixture.store_with_booking BookingStatus.CONFIRMED 3 2) 600 "B1" "U1" None)
    as (_ & _ & Hrefused).
  apply (Hrefused (Fixture.a_booking BookingStatus.CONFIRMED)).
  - reflexivity.
  - reflexivity.
  - discriminate.
Defined.

(** ** The life cycle of an event *)

Lemma publishEvent_draft db id ev :
  events db !! id = Some ev -> ev_status ev = EventStatus.DRAFT ->
  publishEvent db id
  = (Returned (set_event_status EventStatus.PUBLISHED ev),
     save_event db (set_event_status EventStatus.PUBLISHED ev)).
Proof. intros Hev Hst. unfold publishEvent. by rewrite Hev, bool_decide_eq_true_2. Qed.

Lemma openSales_published db id ev :
  events db !! id = Some ev -> ev_status ev = EventStatus.PUBLISHED ->
  openSales db id
  = (Returned (set_event_status EventStatus.SALES_OPEN ev),
     save_event db (set_event_status EventStatus.SALES_OPEN ev)).
Proof. intros Hev Hst. unfold openSales. by rewrite Hev, bool_decide_eq_true_2. Qed.

(** X20. [publishEvent] goes through exactly for a DRAFT event and
    [openSales] exactly for a PUBLISHED one; each changes the status of
    that event and nothing else, and a refusal stores nothing.  Hence
    sales cannot be opened on a draft, and a draft that is published and
    then opened is SALES_OPEN with its inventory as created: it can be
    purchased when it has a seat left and its date is still ahead. *)
Theorem sales_open_through_publication (db : Database) (id : string) (ev : Event) :
  events db !! id = Some ev ->
  ev_id ev = id ->
  ((exists event, fst (publishEvent db id) = Returned event)
   <-> ev_status ev = EventStatus.DRAFT)
  /\ ((exists event, fst (openSales db id) = Returned event)
      <-> ev_status ev = EventStatus.PUBLISHED)
  /\ (ev_status ev <> EventStatus.DRAFT -> snd (publishEvent db id) = db)
  /\ (ev_status ev <> EventStatus.PUBLISHED ->
        openSales db id = (Thrown "Event must be published before opening sales", db))
  /\ (ev_status ev = EventStatus.DRAFT ->
        let published := snd (publishEvent db id) in
        let opened := snd (openSales published id) in
        events published = <[id := set_event_status EventStatus.PUBLISHED ev]> (events db)
        /\ events opened = <[id := set_event_status EventStatus.SALES_OPEN ev]> (events db)
        /\ seats opened = seats db /\ bookings opened = bookings db
        /\ booking_seats opened = booking_seats db
        /\ forall today,
             canPurchaseTickets (set_event_status EventStatus.SALES_OPEN ev) today
             = bool_decide (ev_availableSeats ev > 0) && bool_decide (today < ev_eventDate ev)).
Proof.
  intros Hev Hid. split; [|split; [|split; [|split]]].
  - unfold publishEvent. rewrite Hev.
    destruct (bool_decide (ev_status ev = EventStatus.DRAFT)) eqn:Hst; simpl.
    + apply bool_decide_eq_true in Hst. split; [done | intros _; by eexists].
    + apply bool_decide_eq_false in Hst. split; [by intros [? ?] | done].
  - unfold openSales. rewrite Hev.
    destruct (bool_decide (ev_status ev = EventStatus.PUBLISHED)) eqn:Hst; simpl.
    + apply bool_decide_eq_true in Hst. split; [done | intros _; by eexists].
    + apply bool_decide_eq_false in Hst. split; [by intros [? ?] | done].
  - intros Hst. unfold publishEvent. by rewrite Hev, bool_decide_eq_false_2.
  - intros Hst. unfold openSales. by rewrite Hev, bool_decide_eq_false_2.
  - intros Hst published opened. subst opened published.
    rewrite (publishEvent_draft _ _ _ Hev Hst). simpl.
    rewrite (openSales_published _ _ (set_event_status EventStatus.PUBLISHED ev));
      [| simpl; rewrite Hid; apply lookup_insert_eq | done].
    simpl. rewrite Hid. split; [done|]. split; [by rewrite insert_insert_eq|].
    do 3 (split; [done|]).
    intros today. unfold canPurchaseTickets. simpl. done.
Qed.

(** A draft with 10 seats: opening sales at once is refused. *)
Lemma sales_open_through_publication_witness :
  let db := {| events := {[ "E1"%string :=
                              set_event_status EventStatus.DRAFT
                                (Fixture.event 10 10 (Some 5000)) ]};
               seats := Fixture.four_seats; bookings := ∅; booking_seats := [] |} in
  openSales db "E1" = (Thrown "Event must be published before opening sales", db).
Proof.
  intros db.
  destruct (sales_open_through_publication db "E1"
              (set_event_status EventStatus.DRAFT (Fixture.event 10 10 (Some 5000))))
    as (_ & _ & _ & Hrefused & _).
  - reflexivity.
  - reflexivity.
  - apply Hrefused. discriminate.
Defined.

(** X29. A sold-out event cannot be purchased, whatever its status and
    date; and an event that can be purchased is not sold out.  For an event
    within the inventory bounds, the count of sold seats lies between 0 and
    the capacity, and the event is sold out exactly when all of its
    capacity is sold. *)
Theorem sold_out_event_is_not_purchasable (event : Event) (today : Z) :
  (isSoldOut event = true -> canPurchaseTickets event today = false)
  /\ (canPurchaseTickets event today = true -> isSoldOut event = false)
  /\ (inventory_ok event ->
        0 <= soldSeats event <= ev_maxCapacity event
        /\ (isSoldOut event = true <-> soldSeats event = ev_maxCapacity event)).
Proof.
  unfold isSoldOut, canPurchaseTickets, soldSeats, inventory_ok.
  split; [|split].
  - intros Hout%bool_decide_eq_true.
    rewrite (bool_decide_eq_false_2 (ev_availableSeats event > 0)) by lia.
    by rewrite andb_false_r.
  - intros [[_ Hleft%bool_decide_eq_true]%andb_true_iff _]%andb_true_iff.
    apply bool_decide_eq_false. lia.
  - intros Hinv. split; [lia|]. rewrite bool_decide_eq_true. lia.
Qed.

(** The event on sale with none of its 10 seats left. *)
Lemma sold_out_event_is_not_purchasable_witness :
  canPurchaseTickets (Fixture.event 10 0 (Some 5000)) 500 = false
  /\ soldSeats (Fixture.event 10 0 (Some 5000)) = 10.
Proof.
  destruct (sold_out_event_is_not_purchasable (Fixture.event 10 0 (Some 5000)) 500)
    as (Hout & _ & Hsold).
  split; [by apply Hout|].
  destruct Hsold as [_ Hall]; [unfold inventory_ok; simpl; lia|].
  by apply Hall.
Defined.

(** ** Seat availability as the resolver reports it *)

(** On a cache miss the resolver returns the AVAILABLE rows whose lock
    check answered false, in their order. *)
Lemma availableSeats_miss cache locks venueSeats clock event :
  getCachedSeatAvailability cache event = None ->
  forall s,
    s ∈ fst (availableSeats cache locks venueSeats clock event) <->
    exists index,
      filter (fun s => seat_status s = SeatStatus.AVAILABLE) venueSeats !! index = Some s
      /\ isLocked locks (clock index) (seat_id s) = false.
Proof.
  intros Hmiss s. unfold availableSeats. rewrite Hmiss. simpl.
  rewrite list_elem_of_fmap. split.
  - intros ([locked s'] & -> & [Hfree Hin]%list_elem_of_filter).
    apply elem_of_lookup_imap in Hin as (index & s & [= -> ->] & Hs).
    exists index. simpl in *. done.
  - intros (index & Hs & Hfree). exists (false, s). split; [done|].
    apply list_elem_of_filter. split; [done|].
    apply elem_of_lookup_imap. exists index, s. by rewrite Hfree.
Qed.

(** X21. [availableSeats] answers from the cache when it holds an entry
    for the event, whatever the store and the registry say.  Otherwise it
    returns exactly the seat rows of the venue that are AVAILABLE and whose
    lock check answered false, so none that is BOOKED, in MAINTENANCE or
    under a live lock, and it writes that answer to the cache; when the
    registry does not answer, every seat counts as locked and the answer
    is empty. *)
Theorem availableSeats_hides_locked_seats
    (cache : CacheService) (locks : SeatLockService) (venueSeats : list Seat)
    (clock : nat -> Z) (event : string) :
  let out := availableSeats cache locks venueSeats clock event in
  (forall cached, getCachedSeatAvailability cache event = Some cached ->
     out = (cached, cache))
  /\ (getCachedSeatAvailability cache event = None ->
        (forall s, s ∈ fst out ->
           s ∈ venueSeats /\ seat_status s = SeatStatus.AVAILABLE
           /\ exists index, isLocked locks (clock index) (seat_id s) = false)
        /\ (forall t s, (forall index, clock index = t) ->
              s ∈ venueSeats -> seat_status s = SeatStatus.AVAILABLE ->
              isLocked locks t (seat_id s) = false -> s ∈ fst out)
        /\ (AWS.reachable (dynamoDB locks) = false -> fst out = [])
        /\ (redisUp cache = true ->
              getCachedSeatAvailability (snd out) event = Some (fst out))).
Proof.
  intros out. subst out. split.
  - intros cached Hhit. unfold availableSeats. by rewrite Hhit.
  - intros Hmiss. pose proof (availableSeats_miss cache locks venueSeats clock event Hmiss)
      as Hchar.
    split; [|split; [|split]].
    + intros s (index & Hs & Hfree)%Hchar.
      apply list_elem_of_lookup_2, list_elem_of_filter in Hs as [Hst Hin].
      split; [done|]. split; [done|]. by exists index.
    + intros t s Hclock Hin Hst Hfree. apply Hchar.
      assert (Hin' : s ∈ filter (fun s => seat_status s = SeatStatus.AVAILABLE) venueSeats)
        by (by apply list_elem_of_filter).
      apply list_elem_of_lookup_1 in Hin' as [index Hs].
      exists index. by rewrite Hclock.
    + intros Hdown. apply elem_of_nil_inv. intros s (index & _ & Hfree)%Hchar.
      unfold isLocked, AWS.get in Hfree. by rewrite Hdown in Hfree.
    + intros Hup. unfold availableSeats. rewrite Hmiss. simpl.
      unfold getCachedSeatAvailability, cacheSeatAvailability. rewrite Hup. simpl.
      apply lookup_insert_eq.
Qed.

(** With an empty cache and the registry down no seat is offered. *)
Lemma availableSeats_hides_locked_seats_witness :
  fst (availableSeats {| seatAvailability := ∅; redisUp := true |} Fixture.unreachable
         [Fixture.seat "S1" SeatStatus.AVAILABLE None;
          Fixture.seat "S2" SeatStatus.AVAILABLE None]
         (fun _ => 500) "E1")
  = [].
Proof.
  destruct (availableSeats_hides_locked_seats {| seatAvailability := ∅; redisUp := true |}
              Fixture.unreachable
              [Fixture.seat "S1" SeatStatus.AVAILABLE None;
               Fixture.seat "S2" SeatStatus.AVAILABLE None]
              (fun _ => 500) "E1") as (_ & Hmiss).
  destruct Hmiss as (_ & _ & Hclosed & _); [reflexivity|].
  apply Hclosed. reflexivity.
Defined.

(** X22. A seat just locked is not offered: after a successful [lockSeat]
    at [now] whose invalidation reached the cache, [availableSeats] for
    that event, asked with the cache and registry it left and with every
    lock check made before the expiry [now + lockDurationMs], returns no seat
    with that id. *)
Theorem locked_seat_is_not_offered
    (cache : CacheService) (locks : SeatLockService) (uuid : string) (now : Z)
    (seat event user : string) (venueSeats : list Seat) (clock : nat -> Z) :
  AWS.reachable (dynamoDB locks) = true ->
  redisUp cache = true ->
  lr_success (fst (fst (lockSeat cache locks uuid now seat event user))) = true ->
  (forall index, clock index < now + lockDurationMs locks) ->
  let locks' := snd (fst (lockSeat cache locks uuid now seat event user)) in
  let cache' := snd (lockSeat cache locks uuid now seat event user) in
  forall s, s ∈ fst (availableSeats cache' locks' venueSeats clock event) -> seat_id s <> seat.
Proof.
  intros Hup Hredis. unfold lockSeat. rewrite (acquireLock_reachable _ _ _ _ _ _ Hup).
  destruct (acquire_condition now _); [|done].
  destruct (toISOString_throws _); simpl; [done|].
  intros _ Hclock s Hin Hid.
  apply availableSeats_miss in Hin as (index & _ & Hfree).
  - unfold isLocked, AWS.get in Hfree. simpl in Hfree.
    rewrite Hid, lookup_insert_eq in Hfree. simpl in Hfree.
    apply bool_decide_eq_false in Hfree. specialize (Hclock index). lia.
  - unfold getCachedSeatAvailability, invalidateSeatAvailabilityCache.
    rewrite Hredis. simpl. apply lookup_delete_eq.
Qed.

(** U2 locks the free seat S2 at 100; asked at 500, it is not offered. *)
Lemma locked_seat_is_not_offered_witness :
  let cache := {| seatAvailability := ∅; redisUp := true |} in
  let out := lockSeat cache Fixture.one_lock "L9" 100 "S2" "E1" "U2" in
  Forall (fun s => seat_id s <> "S2"%string)
         (fst (availableSeats (snd out) (snd (fst out))
                 [Fixture.seat "S2" SeatStatus.AVAILABLE None;
                  Fixture.seat "S3" SeatStatus.AVAILABLE None] (fun _ => 500) "E1")).
Proof.
  intros cache out. apply Forall_forall. intros s Hin. revert s Hin.
  apply (locked_seat_is_not_offered cache Fixture.one_lock "L9" 100 "S2" "E1" "U2").
  - reflexivity.
  - reflexivity.
  - vm_compute. reflexivity.
  - intros index. simpl. lia.
Defined.

(** ** The error response *)

(** X23. The response of [ErrorHandler.handle] carries the status code of
    the error, or 500 when it has none or has 0, and repeats it in the
    body.  In production it never carries a stack, and the message of an
    error that is not marked operational is replaced by
    ["Internal Server Error"]; the message of an operational error is sent
    as it is.  Outside production the message and the stack are always
    those of the error. *)
Theorem handle_hides_developer_errors
    (nodeEnv : option string) (timestamp url : string) (error : AppError) :
  let status := fst (handle nodeEnv timestamp url error) in
  let body := snd (handle nodeEnv timestamp url error) in
  body_statusCode body = status
  /\ status <> 0
  /\ (forall code, err_statusCode error = Some code -> code <> 0 -> status = code)
  /\ (err_statusCode error = None \/ err_statusCode error = Some 0 -> status = 500)
  /\ (nodeEnv = Some "production"%string ->
        body_stack body = None
        /\ (err_isOperational error <> Some true ->
              body_message body = "Internal Server Error"%string)
        /\ (err_isOperational error = Some true -> body_message body = err_message error))
  /\ (nodeEnv <> Some "production"%string ->
        body_stack body = err_stack error /\ body_message body = err_message error).
Proof.
  intros status body. subst status body. unfold handle, count_or. simpl.
  split; [done|]. split; [|split; [|split; [|split]]].
  - destruct (err_statusCode error) as [code|]; [|done].
    case_bool_decide; [done | done].
  - intros code -> Hcode. by rewrite bool_decide_eq_false_2.
  - intros [-> | ->]; done.
  - intros ->. rewrite bool_decide_eq_true_2 by done. simpl.
    split; [done|]. split.
    + intros Hdev. destruct (err_isOperational error) as [[|]|]; done.
    + by intros ->.
  - intros Hdev. rewrite bool_decide_eq_false_2 by done. done.
Qed.

(** In production an error without the operational mark is masked. *)
Lemma handle_hides_developer_errors_witness :
  body_message
    (snd (handle (Some "production"%string) "2024-01-01T00:00:00.000Z" "/graphql"
            {| err_message := "connect ECONNREFUSED"; err_stack := Some "at db.ts:1"%string;
               err_statusCode := None; err_isOperational := None |}))
  = "Internal Server Error"%string.
Proof.
  destruct (handle_hides_developer_errors (Some "production"%string)
              "2024-01-01T00:00:00.000Z" "/graphql"
              {| err_message := "connect ECONNREFUSED"; err_stack := Some "at db.ts:1"%string;
                 err_statusCode := None; err_isOperational := None |})
    as (_ & _ & _ & _ & Hprod & _).
  destruct (Hprod eq_refl) as (_ & Hmasked & _).
  apply Hmasked. discriminate.
Defined.

(** X24. The errors the factory methods build answer with their own status
    code (400, 401, 403, 404, 409, 500), and all but
    [internalServerError] are operational, so [handle] sends their message
    in production too, while the message given to [internalServerError]
    is masked there.  [createError] called with status 0 answers 500. *)
Theorem factory_errors_through_handle
    (nodeEnv : option string) (timestamp url : string) (stack : option string)
    (message : string) :
  let answer e := (fst (handle nodeEnv timestamp url e),
                   body_message (snd (handle nodeEnv timestamp url e))) in
  answer (validationError stack message) = (400, message)
  /\ answer (unauthorizedError stack (Some message)) = (401, message)
  /\ answer (forbiddenError stack (Some message)) = (403, message)
  /\ answer (notFoundError stack (Some message)) = (404, message)
  /\ answer (conflictError stack (Some message)) = (409, message)
  /\ answer (unauthorizedError stack None) = (401, "Unauthorized"%string)
  /\ answer (createError stack message None None) = (500, message)
  /\ answer (createError stack message (Some 0) None) = (500, message)
  /\ answer (internalServerError stack (Some message))
     = (500, if bool_decide (nodeEnv = Some "production"%string)
             then "Internal Server Error"%string else message).
Proof.
  intros answer. subst answer. unfold handle. simpl.
  rewrite !andb_false_r, andb_true_r. done.
Qed.

(** ** Registry errors *)

(** X25. When the registry rejects the request, no lock is granted,
    extended or released and nothing is changed: [acquireLock] and
    [extendLock] fail with their system-error message (not the message of
    a lost race or of an invalid lock) and [releaseLock] answers false. *)
Theorem registry_error_grants_nothing
    (this : SeatLockService) (uuid : string) (now : Z) (seat event user lock : string) :
  AWS.reachable (dynamoDB this) = false ->
  acquireLock this uuid now seat event user
  = ({| lr_success := false; lr_lockId := None; lr_expiresAt := None;
        lr_message := Some "Failed to acquire seat lock due to system error"%string |}, this)
  /\ extendLock this now seat event user lock
     = ({| lr_success := false; lr_lockId := None; lr_expiresAt := None;
           lr_message := Some "Failed to extend lock due to system error"%string |}, this)
  /\ releaseLock this seat event user (Some lock) = (false, this).
Proof.
  intros Hdown. split; [by apply acquireLock_unreachable|].
  unfold extendLock, releaseLock, AWS.update, AWS.delete. rewrite Hdown.
  by rewrite with_dynamoDB_same.
Qed.

(** The registry that does not answer refuses U1's own release. *)
Lemma registry_error_grants_nothing_witness :
  releaseLock Fixture.unreachable "S1" "E1" "U1" (Some "L1"%string)
  = (false, Fixture.unreachable).
Proof.
  apply (registry_error_grants_nothing Fixture.unreachable "L9" 500 "S1" "E1" "U1" "L1").
  reflexivity.
Defined.

Lemma existsb_negb_true (l : list bool) i :
  l !! i = Some false -> existsb negb l = true.
Proof.
  revert i. induction l as [|x l IH]; intros [|i]; simpl; try done.
  - by intros [= ->].
  - intros Hi. rewrite (IH i Hi). apply orb_true_r.
Qed.

(** X26. One bad lock refuses the whole commit: when the two lists have the
    same length and, for some seat of the request, the registry does not
    hold at its validation an unexpired lock of the requesting user under
    the identifier given at the same position (or does not answer),
    [createBooking] answers INVALID_LOCKS, before looking at the event,
    and changes neither the store nor the registry.  In particular every
    non-empty commit attempted while the registry is unreachable is
    answered INVALID_LOCKS. *)
Theorem createBooking_refuses_invalid_lock
    (locks : SeatLockService) (db : Database) (env : Surroundings)
    (request : BookingRequest) :
  length (req_seatIds request) = length (req_lockIds request) ->
  ((exists index seat,
      req_seatIds request !! index = Some seat
      /\ validateLock locks (validatedAt env index) seat (req_userId request)
           (req_lockIds request !! index) = false)
   \/ (AWS.reachable (dynamoDB locks) = false /\ req_seatIds request <> [])) ->
  createBooking locks db env request
  = (failure "One or more seat locks are invalid or have expired" "INVALID_LOCKS", db, locks).
Proof.
  intros Hlen Hbad.
  assert (Hinvalid : exists index seat,
            req_seatIds request !! index = Some seat
            /\ validateLock locks (validatedAt env index) seat (req_userId request)
                 (req_lockIds request !! index) = false).
  { destruct Hbad as [Hbad | [Hdown Hne]]; [done|].
    destruct (req_seatIds request) as [|seat ids]; [done|].
    exists 0%nat, seat. split; [done|].
    unfold validateLock, getLockInfo, AWS.get. by rewrite Hdown. }
  destruct Hinvalid as (index & seat & Hseat & Hfalse).
  unfold createBooking, validateSeatLocks. apply Nat.eqb_eq in Hlen. rewrite Hlen. simpl.
  rewrite (existsb_negb_true _ index); [done|].
  by rewrite list_lookup_imap, Hseat, <- Hfalse.
Qed.

(** U1's lock on S1 expires at 1000; a commit validated at 1000 is
    refused. *)
Lemma createBooking_refuses_invalid_lock_witness :
  let env := {| validatedAt := fun _ => 1000; today := 500; bookingDate := 500;
                bookingUuid := "B1"; bookingSeatUuid := fun _ => "BS"%string;
                decimal := decimal (Fixture.surroundings "B1") |} in
  createBooking Fixture.one_lock (Fixture.store 10 10) env
    (Fixture.request "U1" ["S1"] ["L1"])%string
  = (failure "One or more seat locks are invalid or have expired" "INVALID_LOCKS",
     Fixture.store 10 10, Fixture.one_lock).
Proof.
  intros env.
  apply (createBooking_refuses_invalid_lock Fixture.one_lock (Fixture.store 10 10) env
           (Fixture.request "U1" ["S1"] ["L1"])%string).
  - reflexivity.
  - left. exists 0%nat, "S1"%string. split; reflexivity.
Defined.
